(** * ALX Polly: the poll and auth server actions

    A shallow embedding of
    - [app/lib/actions/poll-actions.ts], which the sources hold in two
      revisions: the documented one (module [Rev1]) and the one that adds
      the DOMPurify sanitizer (module [Rev2], the final revision);
    - the auth actions [login], [register], [logout], [getCurrentUser],
      [getSession] (module [Auth]);
    - the two forms of [EditPollForm.tsx] and the dashboard page that call
      these actions (modules [EditPollForm], [PollCreateForm], [PollsPage]).

    Every action is an [async] function that talks to the Supabase client:
    it is embedded as a finite script of requests ([prog]), each request
    answered by the backend.  A script is run against a [backend]; the run
    gives the value the promise resolves to (or the exception it rejects
    with), the final backend state and the requests that were issued. *)

From Stdlib Require Import String Ascii List ZArith Bool Lia.
From Stdlib Require Import Permutation Sorted DecimalString.
Import ListNotations.

Local Open Scope string_scope.
Local Open Scope list_scope.

(** ** JavaScript values used by the actions *)

Module Js.

(** [Boolean(s)] and [!s] on a string: only the empty string is falsy. *)
Definition truthy (s : string) : bool := negb (s =? "").

(** The same on [string | null]: [null] is falsy. *)
Definition truthy_opt (v : option string) : bool :=
  match v with
  | None => false
  | Some s => truthy s
  end.

(** White space and line terminators removed by [String.prototype.trim].
    A character of a Rocq string stands for one code unit below 256:
    TAB, LF, VT, FF, CR, SP and NBSP. *)
Definition is_white_space (c : ascii) : bool :=
  let n := nat_of_ascii c in
  (((9 <=? n) && (n <=? 13)) || (n =? 32) || (n =? 160))%nat.

Fixpoint trimStart (s : string) : string :=
  match s with
  | EmptyString => EmptyString
  | String c rest => if is_white_space c then trimStart rest else s
  end.

Fixpoint trimEnd (s : string) : string :=
  match s with
  | EmptyString => EmptyString
  | String c rest =>
      let kept := trimEnd rest in
      if is_white_space c && (kept =? "") then EmptyString
      else String c kept
  end.

Definition trim (s : string) : string := trimEnd (trimStart s).

End Js.

(** [FormData]: the entries in submission order.  The actions cast every
    entry to [string], so entries are strings here. *)
Definition FormData := list (string * string).

(** [formData.get(name)]: the first value under [name], else [null]. *)
Fixpoint get (formData : FormData) (name : string) : option string :=
  match formData with
  | [] => None
  | (k, v) :: rest => if k =? name then Some v else get rest name
  end.

(** [formData.getAll(name)]: every value under [name], in order. *)
Fixpoint getAll (formData : FormData) (name : string) : list string :=
  match formData with
  | [] => []
  | (k, v) :: rest =>
      if k =? name then v :: getAll rest name else getAll rest name
  end.

(** Column values of the rows sent to and received from the data store. *)
Inductive json : Type :=
| JNull
| JStr (s : string)
| JNum (n : Z)
| JStrs (l : list string).

Definition json_eq_dec (a b : json) : {a = b} + {a <> b}.
Proof.
  decide equality.
  - apply string_dec.
  - apply Z.eq_dec.
  - apply (list_eq_dec string_dec).
Defined.

Definition json_eqb (a b : json) : bool :=
  if json_eq_dec a b then true else false.

(** An object literal such as [{ user_id, question, options }]: its
    properties in the order written. *)
Abbreviation row := (list (string * json)) (only parsing).

Fixpoint field (r : row) (column : string) : option json :=
  match r with
  | [] => None
  | (k, v) :: rest => if k =? column then Some v else field rest column
  end.

(** [string | null] as a column value. *)
Definition json_of_string_or_null (v : option string) : json :=
  match v with
  | None => JNull
  | Some s => JStr s
  end.

(** ** The Supabase client: requests and their responses *)

Record ErrorObj := { message : string }.

Record User := { id : string; email : string }.

Record Session := { session_user : User }.

(** [.eq(column, value)] *)
Inductive filter_by : Type :=
| Eq (column : string) (value : json).

(** [.order(column, { ascending })] *)
Record order_by := { order_column : string; ascending : bool }.

Inductive request : Type :=
| AuthGetUser
| AuthGetSession
| AuthSignInWithPassword (email password : string)
| AuthSignUp (email password name : string)
| AuthSignOut
| DbInsert (table : string) (rows : list row)
| DbSelect (table : string) (filters : list filter_by)
           (order : option order_by)
| DbSelectSingle (table : string) (filters : list filter_by)
| DbUpdate (table : string) (values : row) (filters : list filter_by)
| DbDelete (table : string) (filters : list filter_by)
| RevalidatePath (path : string).

(** [{ data: { user }, error }] *)
Record UserResponse :=
  { data_user : option User; user_error : option ErrorObj }.

(** [{ data: { session } }] *)
Record SessionResponse := { data_session : option Session }.

(** [{ error }] of sign-in, sign-up and sign-out. *)
Record AuthResponse := { auth_error : option ErrorObj }.

(** [{ error }] of insert, update and delete. *)
Record WriteResponse := { write_error : option ErrorObj }.

(** [{ data, error }] of a select returning rows. *)
Record RowsResponse :=
  { rows_data : option (list row); rows_error : option ErrorObj }.

(** [{ data, error }] of a select with [.single()]. *)
Record RowResponse :=
  { row_data : option row; row_error : option ErrorObj }.

Definition response (r : request) : Type :=
  match r with
  | AuthGetUser => UserResponse
  | AuthGetSession => SessionResponse
  | AuthSignInWithPassword _ _ => AuthResponse
  | AuthSignUp _ _ _ => AuthResponse
  | AuthSignOut => AuthResponse
  | DbInsert _ _ => WriteResponse
  | DbSelect _ _ _ => RowsResponse
  | DbSelectSingle _ _ => RowResponse
  | DbUpdate _ _ _ => WriteResponse
  | DbDelete _ _ => WriteResponse
  | RevalidatePath _ => unit
  end.

(** Requests that write to the data store. *)
Definition is_write (r : request) : bool :=
  match r with
  | DbInsert _ _ | DbUpdate _ _ _ | DbDelete _ _ => true
  | _ => false
  end.

(** Requests that consult the authentication service. *)
Definition is_auth (r : request) : bool :=
  match r with
  | AuthGetUser | AuthGetSession | AuthSignInWithPassword _ _
  | AuthSignUp _ _ _ | AuthSignOut => true
  | _ => false
  end.

(** ** Scripts: the body of an async action *)

Inductive exn : Type :=
| TypeError (what : string).

Inductive prog (A : Type) : Type :=
| Ret (a : A)
| Throw (e : exn)
| Call (r : request) (k : response r -> prog A).

Arguments Ret {A} a.
Arguments Throw {A} e.
Arguments Call {A} r k.

Fixpoint bind {A B : Type} (p : prog A) (f : A -> prog B) : prog B :=
  match p with
  | Ret a => f a
  | Throw e => Throw e
  | Call r k => Call r (fun x => bind (k x) f)
  end.

(** [await supabase....] *)
Definition await (r : request) : prog (response r) := Call r Ret.

Declare Scope prog_scope.
Delimit Scope prog_scope with prog.
Notation "x <- c ;; k" := (bind c (fun x => k))
  (at level 61, c at next level, right associativity) : prog_scope.
Notation "c ;;; k" := (bind c (fun _ => k))
  (at level 61, right associativity) : prog_scope.
Local Open Scope prog_scope.

(** What the promise settles to. *)
Inductive outcome (A : Type) : Type :=
| Returned (a : A)
| Threw (e : exn).

Arguments Returned {A} a.
Arguments Threw {A} e.

(** A backend answers every request from its current state.  The client
    handle made by [createClient()] is this record: building the handle
    sends nothing. *)
Record backend := {
  world : Type;
  respond : forall r : request, world -> response r * world
}.

Record run_result (A W : Type) := {
  settled : outcome A;
  final : W;
  trace : list request
}.

Arguments settled {A W} _.
Arguments final {A W} _.
Arguments trace {A W} _.

Fixpoint run {A : Type} (b : backend) (p : prog A) (w : world b)
  : run_result A (world b) :=
  match p with
  | Ret a => {| settled := Returned a; final := w; trace := [] |}
  | Throw e => {| settled := Threw e; final := w; trace := [] |}
  | Call r k =>
      let (x, w') := respond b r w in
      let rest := run b (k x) w' in
      {| settled := settled rest;
         final := final rest;
         trace := r :: trace rest |}
  end.

(** A script that cannot reject, whatever the backend answers. *)
Fixpoint never_throws {A : Type} (p : prog A) : Prop :=
  match p with
  | Ret _ => True
  | Throw _ => False
  | Call r k => forall x : response r, never_throws (k x)
  end.

(** ** Results handed to the presentation layer *)

(** [{ error: string | null }] *)
Record ActionResult := { error : option string }.

(** [{ polls, error }] *)
Record PollsResult := { polls : list row; polls_error : option string }.

(** [{ poll, error }] *)
Record PollResult := { poll : option row; poll_error : option string }.

Definition ok : ActionResult := {| error := None |}.
Definition failure (msg : string) : ActionResult := {| error := Some msg |}.

Definition validation_message : string :=
  "Please provide a question and at least two options.".

(** ** poll-actions.ts, documented revision *)

Module Rev1.

Definition createPoll (formData : FormData) : prog ActionResult :=
  let question := get formData "question" in
  let options := filter Js.truthy (getAll formData "options") in
  if negb (Js.truthy_opt question) || (length options <? 2)%nat then
    Ret (failure validation_message)
  else
    auth <- await AuthGetUser ;;
    match user_error auth with
    | Some userError => Ret (failure (message userError))
    | None =>
        match data_user auth with
        | None => Ret (failure "You must be logged in to create a poll.")
        | Some user =>
            ins <- await (DbInsert "polls"
                     [[("user_id", JStr (id user));
                       ("question", json_of_string_or_null question);
                       ("options", JStrs options)]]) ;;
            match write_error ins with
            | Some e => Ret (failure (message e))
            | None => await (RevalidatePath "/polls") ;;; Ret ok
            end
        end
    end.

Definition getUserPolls : prog PollsResult :=
  auth <- await AuthGetUser ;;
  match data_user auth with
  | None => Ret {| polls := []; polls_error := Some "Not authenticated" |}
  | Some user =>
      sel <- await (DbSelect "polls" [Eq "user_id" (JStr (id user))]
               (Some {| order_column := "created_at";
                        ascending := false |})) ;;
      match rows_error sel with
      | Some e => Ret {| polls := []; polls_error := Some (message e) |}
      | None =>
          Ret {| polls := match rows_data sel with
                          | Some data => data
                          | None => []
                          end;
                 polls_error := None |}
      end
  end.

Definition getPollById (id : string) : prog PollResult :=
  sel <- await (DbSelectSingle "polls" [Eq "id" (JStr id)]) ;;
  match row_error sel with
  | Some e => Ret {| poll := None; poll_error := Some (message e) |}
  | None => Ret {| poll := row_data sel; poll_error := None |}
  end.

(** [optionIndex: number]; the callers pass an array index. *)
Definition submitVote (pollId : string) (optionIndex : Z)
  : prog ActionResult :=
  auth <- await AuthGetUser ;;
  ins <- await (DbInsert "votes"
           [[("poll_id", JStr pollId);
             ("user_id", json_of_string_or_null
                           (option_map id (data_user auth)));
             ("option_index", JNum optionIndex)]]) ;;
  match write_error ins with
  | Some e => Ret (failure (message e))
  | None => Ret ok
  end.

Definition deletePoll (id : string) : prog ActionResult :=
  del <- await (DbDelete "polls" [Eq "id" (JStr id)]) ;;
  match write_error del with
  | Some e => Ret (failure (message e))
  | None => await (RevalidatePath "/polls") ;;; Ret ok
  end.

Definition updatePoll (pollId : string) (formData : FormData)
  : prog ActionResult :=
  let question := get formData "question" in
  let options := filter Js.truthy (getAll formData "options") in
  if negb (Js.truthy_opt question) || (length options <? 2)%nat then
    Ret (failure validation_message)
  else
    auth <- await AuthGetUser ;;
    match user_error auth with
    | Some userError => Ret (failure (message userError))
    | None =>
        match data_user auth with
        | None => Ret (failure "You must be logged in to update a poll.")
        | Some user =>
            upd <- await (DbUpdate "polls"
                     [("question", json_of_string_or_null question);
                      ("options", JStrs options)]
                     [Eq "id" (JStr pollId);
                      Eq "user_id" (JStr (id user))]) ;;
            match write_error upd with
            | Some e => Ret (failure (message e))
            | None => Ret ok
            end
        end
    end.

End Rev1.

(** ** poll-actions.ts, final revision (with the sanitizer) *)

Module Rev2.

Section WithPurify.

(** [purify.sanitize] of DOMPurify over a JSDOM window: a library
    outside the repository.  Its argument is whatever the form holds,
    [null] included. *)
Variable purify_sanitize : option string -> string.

Definition sanitizeInput (input : option string) : string :=
  purify_sanitize input.

Definition createPoll (formData : FormData) : prog ActionResult :=
  let question := sanitizeInput (get formData "question") in
  let options :=
    map (fun option => sanitizeInput (Some option))
      (filter (fun option => negb (Js.trim option =? ""))
         (getAll formData "options")) in
  if negb (Js.truthy question) || (length options <? 2)%nat then
    Ret (failure validation_message)
  else
    auth <- await AuthGetUser ;;
    match user_error auth with
    | Some userError => Ret (failure (message userError))
    | None =>
        match data_user auth with
        | None => Ret (failure "You must be logged in to create a poll.")
        | Some user =>
            ins <- await (DbInsert "polls"
                     [[("user_id", JStr (id user));
                       ("question", JStr question);
                       ("options", JStrs options)]]) ;;
            match write_error ins with
            | Some e => Ret (failure (message e))
            | None => await (RevalidatePath "/polls") ;;; Ret ok
            end
        end
    end.

End WithPurify.

(** The nested pattern [{ data: { user: { id: user_id } } }] reads [id]
    off [data.user]: destructuring [null] is a TypeError. *)
Definition getUserPolls : prog PollsResult :=
  auth <- await AuthGetUser ;;
  match data_user auth with
  | None =>
      Throw (TypeError "Cannot destructure property 'id' of null")
  | Some user =>
      let user_id := id user in
      sel <- await (DbSelect "polls" [Eq "user_id" (JStr user_id)]
               (Some {| order_column := "created_at";
                        ascending := false |})) ;;
      match rows_error sel with
      | Some e => Ret {| polls := []; polls_error := Some (message e) |}
      | None =>
          Ret {| polls := match rows_data sel with
                          | Some data => data
                          | None => []
                          end;
                 polls_error := None |}
      end
  end.

Definition getPollById (id : string) : prog PollResult :=
  sel <- await (DbSelectSingle "polls" [Eq "id" (JStr id)]) ;;
  match row_error sel with
  | Some e => Ret {| poll := None; poll_error := Some (message e) |}
  | None => Ret {| poll := row_data sel; poll_error := None |}
  end.

Definition submitVote (pollId : string) (optionIndex : Z)
  : prog ActionResult :=
  auth <- await AuthGetUser ;;
  ins <- await (DbInsert "votes"
           [[("poll_id", JStr pollId);
             ("user_id", json_of_string_or_null
                           (option_map id (data_user auth)));
             ("option_index", JNum optionIndex)]]) ;;
  match write_error ins with
  | Some e => Ret (failure (message e))
  | None => Ret ok
  end.

Definition deletePoll (id : string) : prog ActionResult :=
  del <- await (DbDelete "polls" [Eq "id" (JStr id)]) ;;
  match write_error del with
  | Some e => Ret (failure (message e))
  | None => await (RevalidatePath "/polls") ;;; Ret ok
  end.

Definition updatePoll (pollId : string) (formData : FormData)
  : prog ActionResult :=
  let question := get formData "question" in
  let options := filter Js.truthy (getAll formData "options") in
  if negb (Js.truthy_opt question) || (length options <? 2)%nat then
    Ret (failure validation_message)
  else
    auth <- await AuthGetUser ;;
    match user_error auth with
    | Some userError => Ret (failure (message userError))
    | None =>
        match data_user auth with
        | None => Ret (failure "You must be logged in to update a poll.")
        | Some user =>
            upd <- await (DbUpdate "polls"
                     [("question", json_of_string_or_null question);
                      ("options", JStrs options)]
                     [Eq "id" (JStr pollId);
                      Eq "user_id" (JStr (id user))]) ;;
            match write_error upd with
            | Some e => Ret (failure (message e))
            | None => Ret ok
            end
        end
    end.

End Rev2.

(** ** The auth actions *)

Module Auth.

Record LoginFormData := { login_email : string; login_password : string }.

Record RegisterFormData :=
  { register_name : string;
    register_email : string;
    register_password : string }.

Definition login (data : LoginFormData) : prog ActionResult :=
  res <- await (AuthSignInWithPassword (login_email data)
                  (login_password data)) ;;
  match auth_error res with
  | Some e => Ret (failure (message e))
  | None => Ret ok
  end.

Definition register (data : RegisterFormData) : prog ActionResult :=
  res <- await (AuthSignUp (register_email data) (register_password data)
                  (register_name data)) ;;
  match auth_error res with
  | Some e => Ret (failure (message e))
  | None => Ret ok
  end.

Definition logout : prog ActionResult :=
  res <- await AuthSignOut ;;
  match auth_error res with
  | Some e => Ret (failure (message e))
  | None => Ret ok
  end.

Definition getCurrentUser : prog (option User) :=
  res <- await AuthGetUser ;;
  Ret (data_user res).

Definition getSession : prog (option Session) :=
  res <- await AuthGetSession ;;
  Ret (data_session res).

End Auth.

(** ** A reference backend

    The hosted service is outside the repository.  This model gives the
    requests their relational meaning on two tables, [polls] and [votes],
    with no row-level policy of its own: a filter keeps the rows whose
    column equals the value, an update or a delete touches exactly the rows
    all filters keep, an insert appends.  [outage] makes every data request
    fail without touching the tables; [auth_failure] is the error the auth
    service attaches to its answers. *)

Module Supabase.

Record account := { account_user : User; account_password : string }.

Record state := {
  session : option User;
  auth_failure : option ErrorObj;
  accounts : list account;
  polls_table : list row;
  votes_table : list row;
  outage : option ErrorObj;
  stale_paths : list string;
  next_id : nat;
  clock : Z
}.

Definition with_session (s : state) (u : option User) : state :=
  {| session := u; auth_failure := auth_failure s;
     accounts := accounts s; polls_table := polls_table s;
     votes_table := votes_table s; outage := outage s;
     stale_paths := stale_paths s; next_id := next_id s;
     clock := clock s |}.

Definition with_account (s : state) (a : account) : state :=
  {| session := Some (account_user a); auth_failure := auth_failure s;
     accounts := accounts s ++ [a]; polls_table := polls_table s;
     votes_table := votes_table s; outage := outage s;
     stale_paths := stale_paths s; next_id := S (next_id s);
     clock := clock s |}.

Definition with_polls (s : state) (rows : list row) : state :=
  {| session := session s; auth_failure := auth_failure s;
     accounts := accounts s; polls_table := rows;
     votes_table := votes_table s; outage := outage s;
     stale_paths := stale_paths s; next_id := next_id s;
     clock := clock s |}.

Definition with_votes (s : state) (rows : list row) : state :=
  {| session := session s; auth_failure := auth_failure s;
     accounts := accounts s; polls_table := polls_table s;
     votes_table := rows; outage := outage s;
     stale_paths := stale_paths s; next_id := next_id s;
     clock := clock s |}.

Definition with_stale (s : state) (path : string) : state :=
  {| session := session s; auth_failure := auth_failure s;
     accounts := accounts s; polls_table := polls_table s;
     votes_table := votes_table s; outage := outage s;
     stale_paths := stale_paths s ++ [path]; next_id := next_id s;
     clock := clock s |}.

Definition tick (s : state) (used : nat) : state :=
  {| session := session s; auth_failure := auth_failure s;
     accounts := accounts s; polls_table := polls_table s;
     votes_table := votes_table s; outage := outage s;
     stale_paths := stale_paths s; next_id := used + next_id s;
     clock := clock s + 1 |}.

(** *** Filters, ordering, assignment *)

Definition matches (f : filter_by) (r : row) : bool :=
  match f with
  | Eq column value =>
      match field r column with
      | Some v => json_eqb v value
      | None => false
      end
  end.

Definition matches_all (filters : list filter_by) (r : row) : bool :=
  forallb (fun f => matches f r) filters.

(** The ordering column holds numbers (timestamps); anything else sorts
    as a null, and nulls sort as larger than every number. *)
Definition sort_key (column : string) (r : row) : option Z :=
  match field r column with
  | Some (JNum n) => Some n
  | _ => None
  end.

Definition key_leb (a b : option Z) : bool :=
  match a, b with
  | _, None => true
  | None, Some _ => false
  | Some x, Some y => (x <=? y)%Z
  end.

Definition row_leb (o : order_by) (r1 r2 : row) : bool :=
  if ascending o
  then key_leb (sort_key (order_column o) r1) (sort_key (order_column o) r2)
  else key_leb (sort_key (order_column o) r2) (sort_key (order_column o) r1).

Fixpoint insert_by (leb : row -> row -> bool) (x : row) (l : list row)
  : list row :=
  match l with
  | [] => [x]
  | y :: rest => if leb x y then x :: l else y :: insert_by leb x rest
  end.

Fixpoint sort_by (leb : row -> row -> bool) (l : list row) : list row :=
  match l with
  | [] => []
  | x :: rest => insert_by leb x (sort_by leb rest)
  end.

Definition ordered (order : option order_by) (l : list row) : list row :=
  match order with
  | None => l
  | Some o => sort_by (row_leb o) l
  end.

Fixpoint set_field (r : row) (column : string) (v : json) : row :=
  match r with
  | [] => [(column, v)]
  | (k, old) :: rest =>
      if k =? column then (k, v) :: rest
      else (k, old) :: set_field rest column v
  end.

Definition assign (values : row) (r : row) : row :=
  fold_left (fun acc kv => set_field acc (fst kv) (snd kv)) values r.

(** *** Tables *)

Definition table_rows (s : state) (table : string) : option (list row) :=
  if table =? "polls" then Some (polls_table s)
  else if table =? "votes" then Some (votes_table s)
  else None.

Definition with_table (s : state) (table : string) (rows : list row)
  : state :=
  if table =? "polls" then with_polls s rows
  else if table =? "votes" then with_votes s rows
  else s.

Definition no_such_table (table : string) : ErrorObj :=
  {| message := "relation " ++ table ++ " does not exist" |}.

(** Columns the store fills in: a new poll gets its [id] and
    [created_at]; a vote is stored as sent. *)
Definition poll_id_of (n : nat) : string :=
  "poll-" ++ NilEmpty.string_of_uint (Nat.to_uint n).

Fixpoint stamp (table : string) (n : nat) (now : Z) (rows : list row)
  : list row :=
  match rows with
  | [] => []
  | r :: rest =>
      (if table =? "polls"
       then ("id", JStr (poll_id_of n)) :: ("created_at", JNum now) :: r
       else r) :: stamp table (S n) now rest
  end.

(** *** Answers *)

Definition write (s : state) (table : string)
    (change : list row -> list row) (used : nat)
  : WriteResponse * state :=
  match outage s with
  | Some e => ({| write_error := Some e |}, s)
  | None =>
      match table_rows s table with
      | None => ({| write_error := Some (no_such_table table) |}, s)
      | Some rows =>
          ({| write_error := None |},
           tick (with_table s table (change rows)) used)
      end
  end.

Definition select (s : state) (table : string) (filters : list filter_by)
    (order : option order_by) : RowsResponse :=
  match outage s with
  | Some e => {| rows_data := None; rows_error := Some e |}
  | None =>
      match table_rows s table with
      | None =>
          {| rows_data := None; rows_error := Some (no_such_table table) |}
      | Some rows =>
          {| rows_data :=
               Some (ordered order (filter (matches_all filters) rows));
             rows_error := None |}
      end
  end.

(** [.single()] is an error unless exactly one row is selected. *)
Definition single (res : RowsResponse) : RowResponse :=
  match rows_error res, rows_data res with
  | Some e, _ => {| row_data := None; row_error := Some e |}
  | None, Some [r] => {| row_data := Some r; row_error := None |}
  | None, _ =>
      {| row_data := None;
         row_error :=
           Some {| message :=
             "JSON object requested, multiple (or no) rows returned" |} |}
  end.

Definition has_email (e : string) (a : account) : bool :=
  email (account_user a) =? e.

Definition sign_in (s : state) (e p : string) : AuthResponse * state :=
  match auth_failure s with
  | Some err => ({| auth_error := Some err |}, s)
  | None =>
      match find (fun a => has_email e a && (account_password a =? p))
              (accounts s) with
      | Some a => ({| auth_error := None |},
                   with_session s (Some (account_user a)))
      | None =>
          ({| auth_error :=
                Some {| message := "Invalid login credentials" |} |}, s)
      end
  end.

Definition sign_up (s : state) (e p : string) : AuthResponse * state :=
  match auth_failure s with
  | Some err => ({| auth_error := Some err |}, s)
  | None =>
      if existsb (has_email e) (accounts s) then
        ({| auth_error :=
              Some {| message := "User already registered" |} |}, s)
      else
        let u := {| id := "user-" ++ NilEmpty.string_of_uint
                                       (Nat.to_uint (next_id s));
                    email := e |} in
        ({| auth_error := None |},
         with_account s {| account_user := u; account_password := p |})
  end.

Definition respond (r : request) (s : state) : response r * state :=
  match r as r0 return response r0 * state with
  | AuthGetUser =>
      ({| data_user := session s; user_error := auth_failure s |}, s)
  | AuthGetSession =>
      ({| data_session :=
            option_map (fun u => {| session_user := u |}) (session s) |},
       s)
  | AuthSignInWithPassword e p => sign_in s e p
  | AuthSignUp e p _ => sign_up s e p
  | AuthSignOut =>
      match auth_failure s with
      | Some err => ({| auth_error := Some err |}, s)
      | None => ({| auth_error := None |}, with_session s None)
      end
  | DbInsert table rows =>
      write s table
        (fun old => old ++ stamp table (next_id s) (clock s) rows)
        (length rows)
  | DbSelect table filters order => (select s table filters order, s)
  | DbSelectSingle table filters =>
      (single (select s table filters None), s)
  | DbUpdate table values filters =>
      write s table
        (map (fun r => if matches_all filters r then assign values r
                       else r)) 0
  | DbDelete table filters =>
      write s table (filter (fun r => negb (matches_all filters r))) 0
  | RevalidatePath path => (tt, with_stale s path)
  end.

End Supabase.

Definition supabase : backend :=
  {| world := Supabase.state; respond := Supabase.respond |}.

(** ** Sample data for running the actions *)

Module Sample.

(** A small sanitizer to run the final revision on examples: it deletes
    every tag [<...>] and answers [""] for [null].  It stands in for the
    DOMPurify parameter, it is not a model of it. *)
Fixpoint strip_tags (inside : bool) (s : string) : string :=
  match s with
  | EmptyString => EmptyString
  | String c rest =>
      if inside then
        if Ascii.eqb c ">" then strip_tags false rest
        else strip_tags true rest
      else if Ascii.eqb c "<" then strip_tags true rest
      else String c (strip_tags false rest)
  end.

Definition purify (input : option string) : string :=
  match input with
  | None => EmptyString
  | Some s => strip_tags false s
  end.

Definition alice : User := {| id := "alice"; email := "alice@example.com" |}.
Definition bob : User := {| id := "bob"; email := "bob@example.com" |}.

Definition poll_row (pid owner question : string) (options : list string)
    (created : Z) : row :=
  [("id", JStr pid); ("created_at", JNum created);
   ("user_id", JStr owner); ("question", JStr question);
   ("options", JStrs options)].

Definition lunch : row := poll_row "p1" "alice" "Lunch?" ["Pizza"; "Salad"] 10.
Definition pets : row := poll_row "p2" "bob" "Pet?" ["Cat"; "Dog"] 20.
Definition tea : row := poll_row "p3" "alice" "Tea?" ["Yes"; "No"] 30.

(** Nobody is signed in. *)
Definition signed_out : Supabase.state :=
  {| Supabase.session := None;
     Supabase.auth_failure := None;
     Supabase.accounts := [];
     Supabase.polls_table := [lunch; pets; tea];
     Supabase.votes_table := [];
     Supabase.outage := None;
     Supabase.stale_paths := [];
     Supabase.next_id := 4;
     Supabase.clock := 40 |}.

Definition as_alice : Supabase.state :=
  Supabase.with_session signed_out (Some alice).

Definition as_bob : Supabase.state :=
  Supabase.with_session signed_out (Some bob).

Definition form (question : string) (options : list string) : FormData :=
  ("question", question) :: map (fun o => ("options", o)) options.

End Sample.

(** ** The forms and the dashboard page *)

(** [Array.prototype.map] and [filter] with the index as second argument. *)
Module JsArray.

Fixpoint map_from {A B : Type} (f : A -> nat -> B) (i : nat) (l : list A)
  : list B :=
  match l with
  | [] => []
  | x :: rest => f x i :: map_from f (S i) rest
  end.

Definition map {A B : Type} (f : A -> nat -> B) (l : list A) : list B :=
  map_from f 0 l.

Fixpoint filter_from {A : Type} (keep : A -> nat -> bool) (i : nat)
    (l : list A) : list A :=
  match l with
  | [] => []
  | x :: rest =>
      if keep x i then x :: filter_from keep (S i) rest
      else filter_from keep (S i) rest
  end.

Definition filter {A : Type} (keep : A -> nat -> bool) (l : list A)
  : list A :=
  filter_from keep 0 l.

End JsArray.

(** [formData.append], [formData.delete] and [formData.set]: [set] puts the
    new entry where the first entry of that name was and drops the others,
    or appends it when there is none. *)
Module Form.

Definition append (formData : FormData) (name value : string) : FormData :=
  formData ++ [(name, value)].

Definition delete (formData : FormData) (name : string) : FormData :=
  filter (fun entry => negb (fst entry =? name)) formData.

Fixpoint set (formData : FormData) (name value : string) : FormData :=
  match formData with
  | [] => [(name, value)]
  | (k, v) :: rest =>
      if k =? name then (name, value) :: delete rest name
      else (k, v) :: set rest name value
  end.

End Form.

(** *** EditPollForm.tsx, first component *)

Module EditPollForm.

(** The four [useState] cells. *)
Record state := {
  edit_question : string;
  edit_options : list string;
  edit_error : option string;
  edit_success : bool
}.

Definition handleOptionChange (idx : nat) (value : string)
    (opts : list string) : list string :=
  JsArray.map (fun opt i => if (i =? idx)%nat then value else opt) opts.

Definition addOption (opts : list string) : list string := opts ++ [""].

(** [options] is the state the handler closed over, that of the render
    it belongs to; [opts] is the latest state, which the updater gets. *)
Definition removeOption (options : list string) (idx : nat)
    (opts : list string) : list string :=
  if (2 <? length options)%nat
  then JsArray.filter (fun _ i => negb (i =? idx)%nat) opts
  else opts.

(** The form data the action hands to updatePoll: the question and options
    of the state replace whatever the submitted form carried. *)
Definition formDataOf (st : state) (formData : FormData) : FormData :=
  let formData := Form.set formData "question" (edit_question st) in
  let formData := Form.delete formData "options" in
  fold_left (fun fd opt => Form.append fd "options" opt)
    (edit_options st) formData.

(** What the action leaves behind: the state, and the page the timer will
    load (the delay itself is not modelled). *)
Record submitted := { after : state; redirect : option string }.

Definition action (poll_id : string) (st : state) (formData : FormData)
  : prog submitted :=
  let cleared :=
    {| edit_question := edit_question st; edit_options := edit_options st;
       edit_error := None; edit_success := false |} in
  res <- Rev2.updatePoll poll_id (formDataOf st formData) ;;
  if Js.truthy_opt (error res) then
    Ret {| after :=
             {| edit_question := edit_question cleared;
                edit_options := edit_options cleared;
                edit_error := error res;
                edit_success := edit_success cleared |};
           redirect := None |}
  else
    Ret {| after :=
             {| edit_question := edit_question cleared;
                edit_options := edit_options cleared;
                edit_error := edit_error cleared;
                edit_success := true |};
           redirect := Some "/polls" |}.

End EditPollForm.

(** *** EditPollForm.tsx, second component: PollCreateForm *)

Module PollCreateForm.

(** The three [useState] cells; the question lives in its input. *)
Record state := {
  create_options : list string;
  create_error : option string;
  create_success : bool
}.

Definition initial : state :=
  {| create_options := [""; ""]; create_error := None;
     create_success := false |}.

Definition handleOptionChange (idx : nat) (value : string)
    (opts : list string) : list string :=
  JsArray.map (fun opt i => if (i =? idx)%nat then value else opt) opts.

Definition addOption (opts : list string) : list string := opts ++ [""].

(** [options] is the state the handler closed over, that of the render
    it belongs to; [opts] is the latest state, which the updater gets. *)
Definition removeOption (options : list string) (idx : nat)
    (opts : list string) : list string :=
  if (2 <? length options)%nat
  then JsArray.filter (fun _ i => negb (i =? idx)%nat) opts
  else opts.

(** The entries of the rendered form: the input named [question], then one
    input named [options] per option of the state, in that order. *)
Definition entries (question : string) (st : state) : FormData :=
  ("question", question)
  :: List.map (fun opt => ("options", opt)) (create_options st).

Record submitted := { after : state; redirect : option string }.

(** The action calls whichever [createPoll] the actions file exports. *)
Definition action (createPoll : FormData -> prog ActionResult) (st : state)
    (formData : FormData) : prog submitted :=
  let cleared :=
    {| create_options := create_options st; create_error := None;
       create_success := false |} in
  res <- createPoll formData ;;
  if Js.truthy_opt (error res) then
    Ret {| after :=
             {| create_options := create_options cleared;
                create_error := error res;
                create_success := create_success cleared |};
           redirect := None |}
  else
    Ret {| after :=
             {| create_options := create_options cleared;
                create_error := create_error cleared;
                create_success := true |};
           redirect := Some "/polls" |}.

End PollCreateForm.

(** *** The dashboard page *)

Module PollsPage.

(** What the page shows: one [PollActions] card per poll, or the
    "No polls yet" block, and the error line under them. *)
Record view := {
  cards : list row;
  no_polls_yet : bool;
  error_line : option string
}.

Definition render (polls : list row) (error : option string) : view :=
  {| cards := if (0 <? length polls)%nat then polls else [];
     no_polls_yet := negb (0 <? length polls)%nat;
     error_line := if Js.truthy_opt error then error else None |}.

Definition PollsPage (getUserPolls : prog PollsResult) : prog view :=
  res <- getUserPolls ;;
  Ret (render (polls res) (polls_error res)).

End PollsPage.

(** A click or keystroke in the option fields of either form. *)
Inductive field_event : Type :=
| Change (idx : nat) (value : string)
| Add
| Remove (idx : nat).

(** One event on a form that has rendered its current fields: the handler
    that runs closed over the very state it updates. *)
Definition edit_step (opts : list string) (e : field_event) : list string :=
  match e with
  | Change idx value => EditPollForm.handleOptionChange idx value opts
  | Add => EditPollForm.addOption opts
  | Remove idx => EditPollForm.removeOption opts idx opts
  end.

Definition create_step (opts : list string) (e : field_event)
  : list string :=
  match e with
  | Change idx value => PollCreateForm.handleOptionChange idx value opts
  | Add => PollCreateForm.addOption opts
  | Remove idx => PollCreateForm.removeOption opts idx opts
  end.

(** ** The vocabulary of the specification *)

(** The form has no question, or an empty one. *)
Definition empty_question (formData : FormData) : Prop :=
  get formData "question" = None \/ get formData "question" = Some "".

(** The options left once the blank (empty) ones are filtered out. *)
Definition non_blank_options (formData : FormData) : list string :=
  filter (fun o => negb (o =? "")) (getAll formData "options").

Definition invalid_form (formData : FormData) : Prop :=
  empty_question formData \/ (length (non_blank_options formData) < 2)%nat.

(** A question is there and at least two options are not empty. *)
Definition valid_form (formData : FormData) : Prop :=
  (exists q, get formData "question" = Some q /\ q <> "") /\
  (2 <= length (non_blank_options formData))%nat.

(** The options the final revision's create keeps: those that are not
    white space only. *)
Definition visible_options (formData : FormData) : list string :=
  filter (fun o => negb (Js.trim o =? "")) (getAll formData "options").

(** What the final revision's create needs to get past validation. *)
Definition valid_after_sanitizing (purify : option string -> string)
    (formData : FormData) : Prop :=
  purify (get formData "question") <> "" /\
  (2 <= length (visible_options formData))%nat.

(** The final revision's create turns the form down: its question is empty
    once sanitized, or fewer than two of its options are left after the
    filter. *)
Definition fails_final_validation (purify : option string -> string)
    (formData : FormData) : Prop :=
  purify (get formData "question") = "" \/
  (length (visible_options formData) < 2)%nat.

(** The sanitizer answers the empty string for an empty or absent input. *)
Definition empty_in_empty_out (purify : option string -> string) : Prop :=
  forall v, Js.truthy_opt v = false -> purify v = "".

Definition no_write (t : list request) : Prop :=
  Forall (fun r => is_write r = false) t.

Definition no_auth (t : list request) : Prop :=
  Forall (fun r => is_auth r = false) t.

(** The caller, as the auth service sees it in state [w]. *)
Definition caller (b : backend) (w : world b) : UserResponse :=
  fst (respond b AuthGetUser w).

Definition unauthenticated (b : backend) (w : world b) : Prop :=
  data_user (caller b w) = None.

Definition authenticated_as (b : backend) (w : world b) (u : User) : Prop :=
  data_user (caller b w) = Some u /\ user_error (caller b w) = None.

(** Validation failed and nothing was written. *)
Definition rejected_without_write {W : Type} (before : W)
    (r : run_result ActionResult W) : Prop :=
  settled r = Returned (failure validation_message) /\
  no_write (trace r) /\
  final r = before.

Definition create_login_message : string :=
  "You must be logged in to create a poll.".

Definition update_login_message : string :=
  "You must be logged in to update a poll.".

(** Validation failed before the auth service was asked anything, and the
    answer is not the login message. *)
Definition rejected_before_auth {W : Type} (login_message : string)
    (r : run_result ActionResult W) : Prop :=
  settled r = Returned (failure validation_message) /\
  no_auth (trace r) /\
  settled r <> Returned (failure login_message).

(** The authentication error: the auth service's own message when it
    reports an error, else the fixed one. *)
Definition auth_refusal (b : backend) (w : world b) (fixed : string)
  : ActionResult :=
  failure match user_error (caller b w) with
          | Some e => message e
          | None => fixed
          end.

Definition refused {W : Type} (b : backend) (w : world b) (fixed : string)
    (r : run_result ActionResult W) : Prop :=
  settled r = Returned (auth_refusal b w fixed) /\ no_write (trace r).

(** [.order("created_at", { ascending: false })] *)
Definition newest_first : order_by :=
  {| order_column := "created_at"; ascending := false |}.

(** The poll belongs to the user with this id. *)
Definition owns (uid : string) (r : row) : bool :=
  match field r "user_id" with
  | Some v => json_eqb v (JStr uid)
  | None => false
  end.

Definition created_at (r : row) : option Z :=
  match field r "created_at" with
  | Some (JNum n) => Some n
  | _ => None
  end.

(** [r1] was created no earlier than [r2]; a row without a timestamp counts
    as the newest. *)
Definition not_older (r1 r2 : row) : Prop :=
  match created_at r1, created_at r2 with
  | None, _ => True
  | Some _, None => False
  | Some a, Some b => (b <= a)%Z
  end.

(** [listed] is exactly the polls of [table] owned by [uid], newest
    first. *)
Definition listing_of (table : list row) (uid : string)
    (listed : list row) : Prop :=
  Permutation listed (filter (owns uid) table) /\
  StronglySorted not_older listed.

(** The row has this id. *)
Definition has_id (pid : string) (r : row) : bool :=
  match field r "id" with
  | Some v => json_eqb v (JStr pid)
  | None => false
  end.

(** A delete on [polls] filtered by the id and by nothing else. *)
Definition delete_request (pid : string) : request :=
  DbDelete "polls" [Eq "id" (JStr pid)].

(** The delete request is all that is sent before the answer; an error
    answer is passed on, a good one is followed by marking the listing
    stale. *)
Definition delete_contract {W : Type} (answer : WriteResponse)
    (pid : string) (r : run_result ActionResult W) : Prop :=
  match write_error answer with
  | Some e =>
      settled r = Returned (failure (message e)) /\
      trace r = [delete_request pid]
  | None =>
      settled r = Returned ok /\
      trace r = [delete_request pid; RevalidatePath "/polls"]
  end.

(** Every poll with this id is gone, the others are as they were, and the
    listing is marked stale. *)
Definition deleted_from (before : Supabase.state) (pid : string)
    (r : run_result ActionResult Supabase.state) : Prop :=
  settled r = Returned ok /\
  Supabase.polls_table (final r)
  = filter (fun p => negb (has_id pid p)) (Supabase.polls_table before) /\
  Supabase.stale_paths (final r) = Supabase.stale_paths before ++ ["/polls"].

(** The vote the caller casts; [user_id] is null for a visitor. *)
Definition vote_row (pollId : string) (voter : option User)
    (optionIndex : Z) : row :=
  [("poll_id", JStr pollId);
   ("user_id", match voter with
               | Some u => JStr (id u)
               | None => JNull
               end);
   ("option_index", JNum optionIndex)].

Definition vote_request (pollId : string) (voter : option User)
    (optionIndex : Z) : request :=
  DbInsert "votes" [vote_row pollId voter optionIndex].

(** One look at the caller, then one insert of one vote row; the result
    carries the insert's error, if any. *)
Definition vote_contract {W : Type} (b : backend) (w : world b)
    (pollId : string) (optionIndex : Z)
    (r : run_result ActionResult W) : Prop :=
  let voter := data_user (caller b w) in
  let insert := vote_request pollId voter optionIndex in
  let answer := fst (respond b insert (snd (respond b AuthGetUser w))) in
  trace r = [AuthGetUser; insert] /\
  settled r = Returned {| error := option_map message (write_error answer) |}.

(** The vote is the one new row of [votes]; [polls] is untouched. *)
Definition vote_recorded (before : Supabase.state) (pollId : string)
    (optionIndex : Z) (r : run_result ActionResult Supabase.state) : Prop :=
  settled r = Returned ok /\
  Supabase.votes_table (final r)
  = Supabase.votes_table before
    ++ [vote_row pollId (Supabase.session before) optionIndex] /\
  Supabase.polls_table (final r) = Supabase.polls_table before.

(** The update sent for a form: the question and the non-blank options
    as submitted, for the rows with this id that this user owns. *)
Definition update_request (pollId : string) (u : User)
    (formData : FormData) : request :=
  DbUpdate "polls"
    [("question", json_of_string_or_null (get formData "question"));
     ("options", JStrs (non_blank_options formData))]
    [Eq "id" (JStr pollId); Eq "user_id" (JStr (id u))].

Definition update_reported_ok {W : Type} (pollId : string) (u : User)
    (formData : FormData) (r : run_result ActionResult W) : Prop :=
  settled r = Returned ok /\
  trace r = [AuthGetUser; update_request pollId u formData].

(** Some poll with this id belongs to this user. *)
Definition owns_poll (table : list row) (pollId uid : string) : Prop :=
  exists p, In p table /\ has_id pollId p = true /\ owns uid p = true.

(** The row a create persists when it sanitizes: the caller's id, the
    sanitized question, the sanitized image of every visible option. *)
Definition sanitized_poll (purify : option string -> string) (u : User)
    (formData : FormData) : row :=
  [("user_id", JStr (id u));
   ("question", JStr (purify (get formData "question")));
   ("options",
    JStrs (map (fun o => purify (Some o)) (visible_options formData)))].


(** [a] may come before [b] under the comparison [leb]. *)
Definition in_order (leb : list (string * json) -> list (string * json) -> bool)
    (a b : row) : Prop :=
  leb a b = true.

(** Walks a script down every answer the backend can give. *)
Ltac settle_script :=
  repeat (simpl;
          match goal with
          | |- forall _, _ => intro
          | |- True => exact I
          | |- never_throws (if ?c then _ else _) => destruct c
          | |- never_throws (match ?x with _ => _ end) => destruct x
          end).

(** A select of the one poll with this id. *)
Definition lookup_request (pid : string) : request :=
  DbSelectSingle "polls" [Eq "id" (JStr pid)].

(** The lookup is the only request; its row or its error is handed on. *)
Definition lookup_contract {W : Type} (answer : RowResponse) (pid : string)
    (r : run_result PollResult W) : Prop :=
  trace r = [lookup_request pid] /\
  settled r
  = Returned match row_error answer with
             | Some e => {| poll := None; poll_error := Some (message e) |}
             | None => {| poll := row_data answer; poll_error := None |}
             end.

(** On the reference backend: the poll when exactly one row has the id, an
    error and no poll otherwise; the backend is left as it was. *)
Definition looked_up (s : Supabase.state) (pid : string)
    (r : run_result PollResult Supabase.state) : Prop :=
  final r = s /\
  (forall p, filter (has_id pid) (Supabase.polls_table s) = [p] ->
     settled r = Returned {| poll := Some p; poll_error := None |}) /\
  (length (filter (has_id pid) (Supabase.polls_table s)) <> 1%nat ->
     settled r
     = Returned
         {| poll := None;
            poll_error :=
              Some "JSON object requested, multiple (or no) rows returned"
         |}).

(** No request of the script, on any path, writes to the data store. *)
Fixpoint writes_nothing {A : Type} (p : prog A) : Prop :=
  match p with
  | Ret _ => True
  | Throw _ => True
  | Call r k => is_write r = false /\ forall x, writes_nothing (k x)
  end.

(** Exactly one request to the auth service, and its error handed on. *)
Definition auth_contract {W : Type} (b : backend) (w : world b)
    (sent : request) (error_of : response sent -> option ErrorObj)
    (r : run_result ActionResult W) : Prop :=
  trace r = [sent] /\
  settled r
  = Returned {| error := option_map message
                           (error_of (fst (respond b sent w))) |}.

Ltac walk_script :=
  repeat (simpl;
          match goal with
          | |- forall _, _ => intro
          | |- True => exact I
          | |- _ /\ _ => split
          | |- false = false => reflexivity
          | |- writes_nothing (if ?c then _ else _) => destruct c
          | |- writes_nothing (match ?x with _ => _ end) => destruct x
          end).

(** Splits a run on the answers the backend gives, one request at a time. *)
Ltac answer_all :=
  repeat (simpl in *;
          match goal with
          | |- context [respond ?b ?q ?w] =>
              let answer := fresh "answer" in
              let w' := fresh "w" in
              destruct (respond b q w) as [answer w']
          | H : context [respond ?b ?q ?w] |- _ =>
              let answer := fresh "answer" in
              let w' := fresh "w" in
              destruct (respond b q w) as [answer w']
          | |- context [match user_error ?a with _ => _ end] =>
              destruct (user_error a)
          | |- context [match data_user ?a with _ => _ end] =>
              destruct (data_user a)
          | |- context [match write_error ?a with _ => _ end] =>
              destruct (write_error a)
          | |- context [match rows_error ?a with _ => _ end] =>
              destruct (rows_error a)
          | |- context [match row_error ?a with _ => _ end] =>
              destruct (row_error a)
          | |- context [match auth_error ?a with _ => _ end] =>
              destruct (auth_error a)
          | H : context [match user_error ?a with _ => _ end] |- _ =>
              destruct (user_error a)
          | H : context [match data_user ?a with _ => _ end] |- _ =>
              destruct (data_user a)
          | H : context [match write_error ?a with _ => _ end] |- _ =>
              destruct (write_error a)
          end).

(** One poll was added to [polls], owned by [uid] and carrying this
    question and these options; [votes] is as it was. *)
Definition poll_added (s : Supabase.state) (uid : string) (question : json)
    (options : list string) (r : run_result ActionResult Supabase.state)
  : Prop :=
  settled r = Returned ok /\
  (exists p,
     Supabase.polls_table (final r) = Supabase.polls_table s ++ [p] /\
     field p "user_id" = Some (JStr uid) /\
     field p "question" = Some question /\
     field p "options" = Some (JStrs options)) /\
  Supabase.votes_table (final r) = Supabase.votes_table s /\
  In "/polls" (Supabase.stale_paths (final r)).

(** The values carry a question that is not empty and at least two
    options. *)
Definition has_question_and_two_options (values : row) : Prop :=
  exists q os,
    field values "question" = Some (JStr q) /\ q <> "" /\
    field values "options" = Some (JStrs os) /\ (2 <= length os)%nat.

(** ... and none of the options is empty. *)
Definition no_empty_option (values : row) : Prop :=
  forall os, field values "options" = Some (JStrs os) ->
             Forall (fun o => o <> "") os.

(** The caller's listing right after a create holds the new poll and is one
    longer than the caller's polls before it. *)
Definition lists_new_poll (before : Supabase.state) (uid : string)
    (question : json) (options : list string)
    (r : run_result PollsResult Supabase.state) : Prop :=
  exists listed,
    settled r = Returned {| polls := listed; polls_error := None |} /\
    (exists p, In p listed /\
               field p "question" = Some question /\
               field p "options" = Some (JStrs options)) /\
    length listed
    = S (length (filter (owns uid) (Supabase.polls_table before))).

(** The update the edit form asks for: the question and the non-empty
    options of its state. *)
Definition edit_request (poll_id : string) (u : User)
    (st : EditPollForm.state) : request :=
  DbUpdate "polls"
    [("question", JStr (EditPollForm.edit_question st));
     ("options", JStrs (filter Js.truthy (EditPollForm.edit_options st)))]
    [Eq "id" (JStr poll_id); Eq "user_id" (JStr (id u))].

(** The state holds a question and two options that are not empty. *)
Definition edit_state_valid (st : EditPollForm.state) : Prop :=
  EditPollForm.edit_question st <> "" /\
  (2 <= length (filter Js.truthy (EditPollForm.edit_options st)))%nat.

(** The form after the action: question and options untouched, and either
    the success flag with a redirect to the listing, or a message that is
    not empty and no redirect. *)
Definition edit_feedback (st : EditPollForm.state)
    (out : EditPollForm.submitted) : Prop :=
  EditPollForm.edit_question (EditPollForm.after out)
  = EditPollForm.edit_question st /\
  EditPollForm.edit_options (EditPollForm.after out)
  = EditPollForm.edit_options st /\
  ((EditPollForm.edit_success (EditPollForm.after out) = true /\
    EditPollForm.edit_error (EditPollForm.after out) = None /\
    EditPollForm.redirect out = Some "/polls") \/
   (EditPollForm.edit_success (EditPollForm.after out) = false /\
    EditPollForm.redirect out = None /\
    exists msg,
      EditPollForm.edit_error (EditPollForm.after out) = Some msg /\
      msg <> "")).

(** The edit form showing this message. *)
Definition edit_failed (st : EditPollForm.state) (msg : string)
  : EditPollForm.submitted :=
  {| EditPollForm.after :=
       {| EditPollForm.edit_question := EditPollForm.edit_question st;
          EditPollForm.edit_options := EditPollForm.edit_options st;
          EditPollForm.edit_error := Some msg;
          EditPollForm.edit_success := false |};
     EditPollForm.redirect := None |}.

(** The edit form showing "Poll updated!" and about to leave. *)
Definition edit_succeeded (st : EditPollForm.state)
  : EditPollForm.submitted :=
  {| EditPollForm.after :=
       {| EditPollForm.edit_question := EditPollForm.edit_question st;
          EditPollForm.edit_options := EditPollForm.edit_options st;
          EditPollForm.edit_error := None;
          EditPollForm.edit_success := true |};
     EditPollForm.redirect := Some "/polls" |}.

(** The create form showing this message. *)
Definition create_failed (st : PollCreateForm.state) (msg : string)
  : PollCreateForm.submitted :=
  {| PollCreateForm.after :=
       {| PollCreateForm.create_options := PollCreateForm.create_options st;
          PollCreateForm.create_error := Some msg;
          PollCreateForm.create_success := false |};
     PollCreateForm.redirect := None |}.

(** The page shows the "No polls yet" block exactly when it shows no card,
    and an error line only with a message that is not empty, and then with
    no card at all. *)
Definition page_consistent (v : PollsPage.view) : Prop :=
  (PollsPage.no_polls_yet v = true <-> PollsPage.cards v = []) /\
  (forall msg,
     PollsPage.error_line v = Some msg ->
     msg <> "" /\ PollsPage.cards v = [] /\ PollsPage.no_polls_yet v = true).

(** What a lookup answers when no single row has the id. *)
Definition not_found : PollResult :=
  {| poll := None;
     poll_error :=
       Some "JSON object requested, multiple (or no) rows returned" |}.

(** The poll fetched after an update: the new question and options, every
    other column as in the poll before. *)
Definition fetched_updated (old : row) (formData : FormData)
    (r : run_result PollResult Supabase.state) : Prop :=
  exists p,
    settled r = Returned {| poll := Some p; poll_error := None |} /\
    field p "question"
    = Some (json_of_string_or_null (get formData "question")) /\
    field p "options" = Some (JStrs (non_blank_options formData)) /\
    (forall column,
       column <> "question" -> column <> "options" ->
       field p column = field old column).

(** The options that are more than white space. *)
Definition more_than_white_space (options : list string) : list string :=
  filter (fun o => negb (Js.trim o =? "")) options.

(** The create form showing "Poll created!" and about to leave. *)
Definition create_succeeded (st : PollCreateForm.state)
  : PollCreateForm.submitted :=
  {| PollCreateForm.after :=
       {| PollCreateForm.create_options := PollCreateForm.create_options st;
          PollCreateForm.create_error := None;
          PollCreateForm.create_success := true |};
     PollCreateForm.redirect := Some "/polls" |}.

(** [after] is [before] with one more poll, owned by [uid], with this
    question and these options. *)
Definition poll_stored (before after : Supabase.state) (uid : string)
    (question : string) (options : list string) : Prop :=
  exists p,
    Supabase.polls_table after = Supabase.polls_table before ++ [p] /\
    field p "user_id" = Some (JStr uid) /\
    field p "question" = Some (JStr question) /\
    field p "options" = Some (JStrs options).

(** ** Basic facts *)

Lemma run_ret {A : Type} (b : backend) (a : A) (w : world b) :
  run b (Ret a) w = {| settled := Returned a; final := w; trace := [] |}.
Proof. reflexivity. Qed.

Lemma run_call {A : Type} (b : backend) (r : request)
    (k : response r -> prog A) (w : world b) :
  run b (Call r k) w =
  let rest := run b (k (fst (respond b r w))) (snd (respond b r w)) in
  {| settled := settled rest; final := final rest;
     trace := r :: trace rest |}.
Proof. simpl. destruct (respond b r w); reflexivity. Qed.

Lemma truthy_false_empty (s : string) : Js.truthy s = false <-> s = "".
Proof.
  unfold Js.truthy. destruct (String.eqb_spec s ""); simpl; split;
    congruence.
Qed.

Lemma truthy_true_nonempty (s : string) : Js.truthy s = true <-> s <> "".
Proof.
  unfold Js.truthy. destruct (String.eqb_spec s ""); simpl; split;
    congruence.
Qed.

Lemma trim_nonempty_is_truthy (s : string) :
  negb (Js.trim s =? "") = true -> Js.truthy s = true.
Proof.
  destruct s as [|c s]; [discriminate | reflexivity].
Qed.

Lemma filter_length_le {A : Type} (p q : A -> bool) (l : list A) :
  (forall x, p x = true -> q x = true) ->
  (length (filter p l) <= length (filter q l))%nat.
Proof.
  intros Hpq. induction l as [|x l IH]; simpl; [lia|].
  destruct (p x) eqn:Hp.
  - rewrite (Hpq x Hp). simpl. lia.
  - destruct (q x); simpl; lia.
Qed.

Lemma visible_options_le (formData : FormData) :
  (length (visible_options formData)
   <= length (non_blank_options formData))%nat.
Proof.
  apply filter_length_le. intros o Ho.
  apply trim_nonempty_is_truthy in Ho. exact Ho.
Qed.

Lemma empty_question_falsy (formData : FormData) :
  empty_question formData ->
  Js.truthy_opt (get formData "question") = false.
Proof. intros [H | H]; rewrite H; reflexivity. Qed.

(** The guard [!question || options.length < 2] of the documented
    revision and of both updates. *)
Lemma guard_rejects (formData : FormData) :
  invalid_form formData ->
  negb (Js.truthy_opt (get formData "question"))
  || (length (filter Js.truthy (getAll formData "options")) <? 2)%nat
  = true.
Proof.
  intros [Hq | Hn].
  - rewrite (empty_question_falsy _ Hq). reflexivity.
  - apply orb_true_iff. right. apply Nat.ltb_lt. exact Hn.
Qed.

Lemma guard_accepts (formData : FormData) :
  valid_form formData ->
  negb (Js.truthy_opt (get formData "question"))
  || (length (filter Js.truthy (getAll formData "options")) <? 2)%nat
  = false.
Proof.
  intros [[q [Hq Hne]] Hn]. rewrite Hq. simpl.
  apply truthy_true_nonempty in Hne. rewrite Hne. simpl.
  apply Nat.ltb_ge. exact Hn.
Qed.

(** The same guard in the final revision's create, after sanitizing. *)
Lemma sanitized_guard_rejects (purify : option string -> string)
    (formData : FormData) :
  empty_in_empty_out purify ->
  invalid_form formData ->
  negb (Js.truthy (Rev2.sanitizeInput purify (get formData "question")))
  || Nat.ltb
       (length
          (map (fun option => Rev2.sanitizeInput purify (Some option))
             (filter (fun option => negb (Js.trim option =? ""))
                (getAll formData "options")))) 2
  = true.
Proof.
  intros Hp [Hq | Hn].
  - unfold Rev2.sanitizeInput.
    rewrite (Hp _ (empty_question_falsy _ Hq)). reflexivity.
  - apply orb_true_iff. right. apply Nat.ltb_lt.
    rewrite length_map.
    pose proof (visible_options_le formData) as Hle.
    unfold visible_options in Hle. lia.
Qed.

Lemma sanitized_guard_accepts (purify : option string -> string)
    (formData : FormData) :
  valid_after_sanitizing purify formData ->
  negb (Js.truthy (Rev2.sanitizeInput purify (get formData "question")))
  || Nat.ltb
       (length
          (map (fun option => Rev2.sanitizeInput purify (Some option))
             (filter (fun option => negb (Js.trim option =? ""))
                (getAll formData "options")))) 2
  = false.
Proof.
  intros [Hq Hn]. unfold Rev2.sanitizeInput.
  apply truthy_true_nonempty in Hq. rewrite Hq. simpl.
  apply Nat.ltb_ge. rewrite length_map. exact Hn.
Qed.

(** On an invalid form each of the four scripts is the bare return of the
    validation message: nothing is asked of the backend. *)
Lemma Rev1_createPoll_invalid (formData : FormData) :
  invalid_form formData ->
  Rev1.createPoll formData = Ret (failure validation_message).
Proof.
  intros H. unfold Rev1.createPoll. rewrite (guard_rejects _ H). reflexivity.
Qed.

Lemma Rev1_updatePoll_invalid (pollId : string) (formData : FormData) :
  invalid_form formData ->
  Rev1.updatePoll pollId formData = Ret (failure validation_message).
Proof.
  intros H. unfold Rev1.updatePoll. rewrite (guard_rejects _ H). reflexivity.
Qed.

Lemma Rev2_createPoll_invalid (purify : option string -> string)
    (formData : FormData) :
  empty_in_empty_out purify ->
  invalid_form formData ->
  Rev2.createPoll purify formData = Ret (failure validation_message).
Proof.
  intros Hp H. unfold Rev2.createPoll.
  rewrite (sanitized_guard_rejects _ _ Hp H). reflexivity.
Qed.

Lemma Rev2_updatePoll_invalid (pollId : string) (formData : FormData) :
  invalid_form formData ->
  Rev2.updatePoll pollId formData = Ret (failure validation_message).
Proof.
  intros H. unfold Rev2.updatePoll. rewrite (guard_rejects _ H). reflexivity.
Qed.

Lemma StronglySorted_impl_rel {A : Type} (R S : A -> A -> Prop)
    (l : list A) :
  (forall a b, R a b <-> S a b) ->
  StronglySorted R l -> StronglySorted S l.
Proof.
  intros HRS. induction 1 as [|x l Hs IH Hx]; constructor.
  - exact IH.
  - eapply Forall_impl; [|exact Hx]. intros y. apply HRS.
Qed.

Lemma sample_purify_empty : empty_in_empty_out Sample.purify.
Proof.
  intros [s|] H; [|reflexivity].
  apply truthy_false_empty in H. subst s. reflexivity.
Qed.

(** ** Validation comes first *)

(** C1. createPoll and updatePoll, in both revisions, answer a form with an
    empty question, or with fewer than two non-blank options, with the
    validation message, and issue no insert, update or delete; the backend
    is left as it was. *)
Theorem invalid_form_rejected_without_write :
  forall (purify : option string -> string) (b : backend) (w : world b)
         (pollId : string) (formData : FormData),
    invalid_form formData ->
    rejected_without_write w (run b (Rev1.createPoll formData) w) /\
    rejected_without_write w (run b (Rev1.updatePoll pollId formData) w) /\
    rejected_without_write w (run b (Rev2.updatePoll pollId formData) w) /\
    (empty_in_empty_out purify ->
     rejected_without_write w (run b (Rev2.createPoll purify formData) w)).
Proof.
  intros purify b w pollId formData H.
  rewrite (Rev1_createPoll_invalid _ H), (Rev1_updatePoll_invalid pollId _ H),
    (Rev2_updatePoll_invalid pollId _ H).
  rewrite run_ret. unfold rejected_without_write, no_write. simpl.
  assert (Hnone : Forall (fun r => is_write r = false) []) by constructor.
  split; [|split; [|split]];
    try (intros Hp; rewrite (Rev2_createPoll_invalid _ _ Hp H); simpl);
    (split; [reflexivity | split; [exact Hnone | reflexivity]]).
Qed.

Lemma invalid_form_rejected_without_write_witness :
  let formData := Sample.form "" ["Pizza"; "Salad"] in
  rejected_without_write Sample.signed_out
    (run supabase (Rev1.createPoll formData) Sample.signed_out) /\
  rejected_without_write Sample.signed_out
    (run supabase (Rev1.updatePoll "p1" formData) Sample.signed_out) /\
  rejected_without_write Sample.signed_out
    (run supabase (Rev2.updatePoll "p1" formData) Sample.signed_out) /\
  rejected_without_write Sample.signed_out
    (run supabase (Rev2.createPoll Sample.purify formData)
       Sample.signed_out).
Proof.
  destruct (invalid_form_rejected_without_write Sample.purify supabase
              Sample.signed_out "p1" (Sample.form "" ["Pizza"; "Salad"]))
    as [H1 [H2 [H3 H4]]].
  - left. right. reflexivity.
  - exact (conj H1 (conj H2 (conj H3 (H4 sample_purify_empty)))).
Defined.

(** The final revision's create is the bare return of the validation
    message on every form its own guard turns down. *)
Lemma Rev2_createPoll_fails_validation (purify : option string -> string)
    (formData : FormData) :
  fails_final_validation purify formData ->
  Rev2.createPoll purify formData = Ret (failure validation_message).
Proof.
  intros Hfails. unfold Rev2.createPoll, Rev2.sanitizeInput.
  destruct Hfails as [Hq | Hn].
  - rewrite Hq. reflexivity.
  - unfold visible_options in Hn.
    match goal with
    | |- context [(length ?l <? 2)%nat] =>
        assert (Hguard : (length l <? 2)%nat = true)
          by (apply Nat.ltb_lt; rewrite length_map; exact Hn);
        rewrite Hguard
    end.
    rewrite orb_true_r. reflexivity.
Qed.

Lemma invalid_form_fails_final_validation (purify : option string -> string)
    (formData : FormData) :
  empty_in_empty_out purify ->
  invalid_form formData ->
  fails_final_validation purify formData.
Proof.
  intros Hp [Hq | Hn].
  - left. apply Hp. apply empty_question_falsy. exact Hq.
  - right. pose proof (visible_options_le formData). lia.
Qed.

(** C10. Every form that fails validation gets the validation message
    without a single request to the auth service, so a caller who is not
    signed in gets the validation message, not the "must be logged in"
    one.  For the documented createPoll and for updatePoll a form fails
    when its question is absent or empty or fewer than two of its options
    are non-empty; for the final createPoll, when its question is empty
    once sanitized or fewer than two of its options are more than white
    space, which takes in every form of the first kind as soon as the
    sanitizer answers the empty string for empty input. *)
Theorem invalid_form_rejected_before_auth :
  forall (purify : option string -> string) (b : backend) (w : world b)
         (pollId : string) (formData : FormData),
    (invalid_form formData ->
     rejected_before_auth create_login_message
       (run b (Rev1.createPoll formData) w) /\
     rejected_before_auth update_login_message
       (run b (Rev1.updatePoll pollId formData) w) /\
     rejected_before_auth update_login_message
       (run b (Rev2.updatePoll pollId formData) w) /\
     (empty_in_empty_out purify ->
      rejected_before_auth create_login_message
        (run b (Rev2.createPoll purify formData) w))) /\
    (fails_final_validation purify formData ->
     rejected_before_auth create_login_message
       (run b (Rev2.createPoll purify formData) w)).
Proof.
  intros purify b w pollId formData.
  assert (Hnone : Forall (fun r => is_auth r = false) []) by constructor.
  assert (Hret : rejected_before_auth create_login_message
                   (run b (Ret (failure validation_message)) w) /\
                 rejected_before_auth update_login_message
                   (run b (Ret (failure validation_message)) w)).
  { rewrite run_ret. unfold rejected_before_auth, no_auth. simpl.
    split; (split; [reflexivity | split; [exact Hnone | discriminate]]). }
  destruct Hret as [Hcreate Hupdate].
  split.
  - intros H.
    rewrite (Rev1_createPoll_invalid _ H),
      (Rev1_updatePoll_invalid pollId _ H),
      (Rev2_updatePoll_invalid pollId _ H).
    split; [exact Hcreate|]. split; [exact Hupdate|].
    split; [exact Hupdate|].
    intros Hp.
    rewrite (Rev2_createPoll_fails_validation purify formData
               (invalid_form_fails_final_validation _ _ Hp H)).
    exact Hcreate.
  - intros Hfails.
    rewrite (Rev2_createPoll_fails_validation purify formData Hfails).
    exact Hcreate.
Qed.

Lemma invalid_form_rejected_before_auth_witness :
  let formData := Sample.form "Lunch?" ["Pizza"; ""] in
  unauthenticated supabase Sample.signed_out /\
  (rejected_before_auth create_login_message
     (run supabase (Rev1.createPoll formData) Sample.signed_out) /\
   rejected_before_auth update_login_message
     (run supabase (Rev1.updatePoll "p1" formData) Sample.signed_out) /\
   rejected_before_auth update_login_message
     (run supabase (Rev2.updatePoll "p1" formData) Sample.signed_out) /\
   rejected_before_auth create_login_message
     (run supabase (Rev2.createPoll Sample.purify formData)
        Sample.signed_out)) /\
  rejected_before_auth create_login_message
    (run supabase
       (Rev2.createPoll Sample.purify (Sample.form "Lunch?" ["Pizza"; "   "]))
       Sample.signed_out) /\
  rejected_before_auth create_login_message
    (run supabase
       (Rev2.createPoll Sample.purify
          (Sample.form "<b></b>" ["Pizza"; "Salad"]))
       Sample.signed_out).
Proof.
  split; [reflexivity|].
  split; [|split].
  - destruct (proj1 (invalid_form_rejected_before_auth Sample.purify
                       supabase Sample.signed_out "p1"
                       (Sample.form "Lunch?" ["Pizza"; ""])))
      as [H1 [H2 [H3 H4]]].
    + right. simpl. lia.
    + exact (conj H1 (conj H2 (conj H3 (H4 sample_purify_empty)))).
  - apply (proj2 (invalid_form_rejected_before_auth Sample.purify supabase
                    Sample.signed_out "p1"
                    (Sample.form "Lunch?" ["Pizza"; "   "]))).
    right. simpl. lia.
  - apply (proj2 (invalid_form_rejected_before_auth Sample.purify supabase
                    Sample.signed_out "p1"
                    (Sample.form "<b></b>" ["Pizza"; "Salad"]))).
    left. reflexivity.
Defined.

(** An option made of white space only is dropped by the final revision's
    create and kept by its update; a question that is nothing but markup is
    empty once sanitized. *)
Example white_space_and_markup_only :
  let spaced := Sample.form "Lunch?" ["Pizza"; "   "] in
  let hollow := Sample.form "<b></b>" ["Pizza"; "Salad"] in
  settled (run supabase (Rev2.createPoll Sample.purify spaced)
             Sample.as_alice)
  = Returned (failure validation_message) /\
  trace (run supabase (Rev2.updatePoll "p1" spaced) Sample.as_alice)
  = [AuthGetUser;
     DbUpdate "polls"
       [("question", JStr "Lunch?"); ("options", JStrs ["Pizza"; "   "])]
       [Eq "id" (JStr "p1"); Eq "user_id" (JStr "alice")]] /\
  run supabase (Rev2.createPoll Sample.purify hollow) Sample.as_alice
  = {| settled := Returned (failure validation_message);
       final := Sample.as_alice;
       trace := [] |}.
Proof. repeat split. Qed.

(** ** Authentication *)

Lemma refused_after_getUser (b : backend) (w : world b) (fixed : string)
    (k : User -> prog ActionResult) :
  unauthenticated b w ->
  refused b w fixed
    (run b
       (auth <- await AuthGetUser ;;
        match user_error auth with
        | Some userError => Ret (failure (message userError))
        | None =>
            match data_user auth with
            | None => Ret (failure fixed)
            | Some user => k user
            end
        end) w).
Proof.
  unfold unauthenticated, refused, auth_refusal, caller, no_write.
  intros Hnone. simpl.
  destruct (respond b AuthGetUser w) as [auth w'] eqn:E. simpl in *.
  destruct (user_error auth) as [e|]; simpl.
  - split; [reflexivity | repeat constructor].
  - rewrite Hnone. simpl. split; [reflexivity | repeat constructor].
Qed.

(** C5. With a form that passes validation and nobody signed in,
    createPoll and updatePoll return an authentication error and issue no
    write: the error the auth service reports, word for word, when it
    reports one, else the fixed "must be logged in" message. *)
Theorem unauthenticated_write_refused :
  forall (purify : option string -> string) (b : backend) (w : world b)
         (pollId : string) (formData : FormData),
    unauthenticated b w ->
    (valid_form formData ->
     refused b w create_login_message (run b (Rev1.createPoll formData) w) /\
     refused b w update_login_message
       (run b (Rev1.updatePoll pollId formData) w) /\
     refused b w update_login_message
       (run b (Rev2.updatePoll pollId formData) w)) /\
    (valid_after_sanitizing purify formData ->
     refused b w create_login_message
       (run b (Rev2.createPoll purify formData) w)).
Proof.
  intros purify b w pollId formData Hanon. split.
  - intros Hv.
    unfold Rev1.createPoll, Rev1.updatePoll, Rev2.updatePoll.
    rewrite (guard_accepts _ Hv).
    repeat split; apply refused_after_getUser; exact Hanon.
  - intros Hv. unfold Rev2.createPoll.
    rewrite (sanitized_guard_accepts _ _ Hv).
    apply refused_after_getUser; exact Hanon.
Qed.

Lemma unauthenticated_write_refused_witness :
  let formData := Sample.form "Lunch?" ["Pizza"; "Salad"] in
  unauthenticated supabase Sample.signed_out /\
  refused supabase Sample.signed_out create_login_message
    (run supabase (Rev1.createPoll formData) Sample.signed_out) /\
  refused supabase Sample.signed_out update_login_message
    (run supabase (Rev1.updatePoll "p1" formData) Sample.signed_out) /\
  refused supabase Sample.signed_out update_login_message
    (run supabase (Rev2.updatePoll "p1" formData) Sample.signed_out) /\
  refused supabase Sample.signed_out create_login_message
    (run supabase (Rev2.createPoll Sample.purify formData)
       Sample.signed_out).
Proof.
  destruct (unauthenticated_write_refused Sample.purify supabase
              Sample.signed_out "p1"
              (Sample.form "Lunch?" ["Pizza"; "Salad"]) eq_refl)
    as [Hplain Hsanitized].
  split; [reflexivity|].
  assert (Hv : valid_form (Sample.form "Lunch?" ["Pizza"; "Salad"])).
  { split; [|simpl; lia].
    exists "Lunch?". split; [reflexivity | discriminate]. }
  assert (Hs : valid_after_sanitizing Sample.purify
                 (Sample.form "Lunch?" ["Pizza"; "Salad"])).
  { split; [discriminate | simpl; lia]. }
  destruct (Hplain Hv) as [H1 [H2 H3]].
  exact (conj H1 (conj H2 (conj H3 (Hsanitized Hs)))).
Defined.

(** The two messages side by side on the reference backend: the fixed one
    when the auth service reports nothing, its own when it does. *)
Example createPoll_signed_out_messages :
  let formData := Sample.form "Lunch?" ["Pizza"; "Salad"] in
  let expired :=
    {| Supabase.session := None;
       Supabase.auth_failure := Some {| message := "Auth session missing!" |};
       Supabase.accounts := [];
       Supabase.polls_table := [Sample.lunch];
       Supabase.votes_table := [];
       Supabase.outage := None;
       Supabase.stale_paths := [];
       Supabase.next_id := 2;
       Supabase.clock := 11 |} in
  settled (run supabase (Rev1.createPoll formData) Sample.signed_out)
  = Returned (failure "You must be logged in to create a poll.") /\
  settled (run supabase (Rev2.createPoll Sample.purify formData) expired)
  = Returned (failure "Auth session missing!") /\
  final (run supabase (Rev2.createPoll Sample.purify formData) expired)
  = expired.
Proof. repeat split. Qed.

(** ** Exceptions *)

(** Every action but the final revision's getUserPolls settles with a
    result object, whatever the backend answers. *)
Lemma actions_never_throw :
  forall (purify : option string -> string) (formData : FormData)
         (pollId : string) (optionIndex : Z)
         (credentials : Auth.LoginFormData)
         (registration : Auth.RegisterFormData),
    never_throws (Rev1.createPoll formData) /\
    never_throws Rev1.getUserPolls /\
    never_throws (Rev1.getPollById pollId) /\
    never_throws (Rev1.updatePoll pollId formData) /\
    never_throws (Rev1.deletePoll pollId) /\
    never_throws (Rev1.submitVote pollId optionIndex) /\
    never_throws (Rev2.createPoll purify formData) /\
    never_throws (Rev2.getPollById pollId) /\
    never_throws (Rev2.updatePoll pollId formData) /\
    never_throws (Rev2.deletePoll pollId) /\
    never_throws (Rev2.submitVote pollId optionIndex) /\
    never_throws (Auth.login credentials) /\
    never_throws (Auth.register registration) /\
    never_throws Auth.logout /\
    never_throws Auth.getCurrentUser /\
    never_throws Auth.getSession.
Proof.
  intros.
  unfold Rev1.createPoll, Rev1.getUserPolls, Rev1.getPollById,
    Rev1.updatePoll, Rev1.deletePoll, Rev1.submitVote, Rev2.createPoll,
    Rev2.getPollById, Rev2.updatePoll, Rev2.deletePoll, Rev2.submitVote,
    Auth.login, Auth.register, Auth.logout, Auth.getCurrentUser,
    Auth.getSession.
  repeat split; settle_script.
Qed.

Lemma never_throws_returns {A : Type} (p : prog A) :
  never_throws p ->
  forall (b : backend) (w : world b),
    exists a, settled (run b p w) = Returned a.
Proof.
  induction p as [a | e | r k IH]; simpl; intros H b w.
  - exists a. reflexivity.
  - contradiction.
  - destruct (respond b r w) as [x w']. simpl. apply IH. apply H.
Qed.

(** C2. The final revision's getUserPolls does not return a result object
    when nobody is signed in: destructuring the absent user throws, after
    the one request to the auth service, whatever else the backend would
    answer. *)
Theorem getUserPolls_throws_when_signed_out :
  forall (b : backend) (w : world b),
    unauthenticated b w ->
    settled (run b Rev2.getUserPolls w)
    = Threw (TypeError "Cannot destructure property 'id' of null") /\
    trace (run b Rev2.getUserPolls w) = [AuthGetUser] /\
    forall result, settled (run b Rev2.getUserPolls w) <> Returned result.
Proof.
  unfold unauthenticated, caller. intros b w Hnone.
  unfold Rev2.getUserPolls. simpl.
  destruct (respond b AuthGetUser w) as [auth w']. simpl in *.
  rewrite Hnone. simpl. repeat split. discriminate.
Qed.

Lemma getUserPolls_throws_when_signed_out_witness :
  unauthenticated supabase Sample.signed_out /\
  settled (run supabase Rev2.getUserPolls Sample.signed_out)
  = Threw (TypeError "Cannot destructure property 'id' of null") /\
  trace (run supabase Rev2.getUserPolls Sample.signed_out) = [AuthGetUser] /\
  forall result,
    settled (run supabase Rev2.getUserPolls Sample.signed_out)
    <> Returned result.
Proof.
  split; [reflexivity|].
  apply (getUserPolls_throws_when_signed_out supabase Sample.signed_out).
  reflexivity.
Defined.

(** ** Ordering and filtering in the reference backend *)

Section Sorting.

Variable leb : row -> row -> bool.
Hypothesis leb_total : forall a b, leb a b = false -> leb b a = true.
Hypothesis leb_trans :
  forall a b c, leb a b = true -> leb b c = true -> leb a c = true.

Lemma insert_by_perm (x : row) (l : list row) :
  Permutation (Supabase.insert_by leb x l) (x :: l).
Proof.
  induction l as [|y l IH]; simpl; [reflexivity|].
  destruct (leb x y); [reflexivity|].
  rewrite IH. apply perm_swap.
Qed.

Lemma sort_by_perm (l : list row) : Permutation (Supabase.sort_by leb l) l.
Proof.
  induction l as [|x l IH]; simpl; [reflexivity|].
  rewrite insert_by_perm. constructor. exact IH.
Qed.

Lemma insert_by_sorted (x : row) (l : list row) :
  StronglySorted (in_order leb) l ->
  StronglySorted (in_order leb) (Supabase.insert_by leb x l).
Proof.
  induction 1 as [|y l Hs IH Hy]; simpl.
  - repeat constructor.
  - destruct (leb x y) eqn:Hxy.
    + constructor; [constructor; assumption|].
      constructor; [exact Hxy|].
      eapply Forall_impl; [|exact Hy].
      intros z Hz. exact (leb_trans _ _ _ Hxy Hz).
    + constructor; [exact IH|].
      eapply Permutation_Forall.
      * symmetry. apply insert_by_perm.
      * constructor; [apply leb_total; exact Hxy | exact Hy].
Qed.

Lemma sort_by_sorted (l : list row) :
  StronglySorted (in_order leb) (Supabase.sort_by leb l).
Proof.
  induction l as [|x l IH]; simpl; [constructor|].
  apply insert_by_sorted. exact IH.
Qed.

End Sorting.

Lemma key_leb_total (a b : option Z) :
  Supabase.key_leb a b = false -> Supabase.key_leb b a = true.
Proof.
  destruct a, b; simpl; try congruence.
  intros H. apply Z.leb_gt in H. apply Z.leb_le. lia.
Qed.

Lemma key_leb_trans (a b c : option Z) :
  Supabase.key_leb a b = true -> Supabase.key_leb b c = true ->
  Supabase.key_leb a c = true.
Proof.
  destruct a, b, c; simpl; try congruence.
  rewrite !Z.leb_le. lia.
Qed.

Lemma newest_first_not_older (r1 r2 : row) :
  Supabase.row_leb newest_first r1 r2 = true <-> not_older r1 r2.
Proof.
  unfold Supabase.row_leb, not_older, created_at, newest_first,
    Supabase.sort_key.
  simpl.
  destruct (field r1 "created_at") as [[| |a|]|],
    (field r2 "created_at") as [[| |b|]|]; simpl;
    rewrite ?Z.leb_le; split; intros H; try exact I; try reflexivity;
    try discriminate; try contradiction; exact H.
Qed.

Lemma owns_matches (uid : string) (r : row) :
  Supabase.matches_all [Eq "user_id" (JStr uid)] r = owns uid r.
Proof.
  unfold Supabase.matches_all, owns. simpl. apply andb_true_r.
Qed.

(** What a select of the caller's polls, newest first, answers. *)
Lemma select_own_polls (s : Supabase.state) (uid : string) :
  Supabase.outage s = None ->
  exists listed,
    Supabase.select s "polls" [Eq "user_id" (JStr uid)] (Some newest_first)
    = {| rows_data := Some listed; rows_error := None |} /\
    listing_of (Supabase.polls_table s) uid listed.
Proof.
  intros Hup. unfold Supabase.select. rewrite Hup. simpl.
  eexists. split; [reflexivity|].
  rewrite (filter_ext _ _ (owns_matches uid)).
  split.
  - apply sort_by_perm.
  - eapply StronglySorted_impl_rel.
    + intros a b. unfold in_order. apply newest_first_not_older.
    + apply sort_by_sorted; unfold Supabase.row_leb; simpl; intros.
      * apply key_leb_total. assumption.
      * eapply key_leb_trans; eassumption.
Qed.

(** ** Listing the caller's polls *)

(** The documented revision does all the specification asks of getUserPolls. *)
Lemma Rev1_getUserPolls_contract (s : Supabase.state) :
  (forall u, Supabase.session s = Some u -> Supabase.outage s = None ->
     exists listed,
       settled (run supabase Rev1.getUserPolls s)
       = Returned {| polls := listed; polls_error := None |} /\
       listing_of (Supabase.polls_table s) (id u) listed /\
       (filter (owns (id u)) (Supabase.polls_table s) = [] ->
        listed = [])) /\
  (forall u e, Supabase.session s = Some u -> Supabase.outage s = Some e ->
     settled (run supabase Rev1.getUserPolls s)
     = Returned {| polls := []; polls_error := Some (message e) |}) /\
  (Supabase.session s = None ->
     settled (run supabase Rev1.getUserPolls s)
     = Returned {| polls := []; polls_error := Some "Not authenticated" |}).
Proof.
  unfold Rev1.getUserPolls. repeat split.
  - intros u Hu Hup.
    destruct (select_own_polls s (id u) Hup) as [listed [Hsel Hlist]].
    exists listed. cbn. rewrite Hu. cbn.
    fold newest_first. rewrite Hsel. cbn.
    repeat split; try apply Hlist.
    intros Hnone. destruct Hlist as [Hperm _]. rewrite Hnone in Hperm.
    apply Permutation_nil. symmetry. exact Hperm.
  - intros u e Hu Hdown. cbn. rewrite Hu. cbn.
    unfold Supabase.select. rewrite Hdown. reflexivity.
  - intros Hnone. cbn. rewrite Hnone. reflexivity.
Qed.

(** So does the final revision, as long as somebody is signed in. *)
Lemma Rev2_getUserPolls_signed_in (s : Supabase.state) (u : User) :
  Supabase.session s = Some u ->
  (Supabase.outage s = None ->
     exists listed,
       settled (run supabase Rev2.getUserPolls s)
       = Returned {| polls := listed; polls_error := None |} /\
       listing_of (Supabase.polls_table s) (id u) listed /\
       (filter (owns (id u)) (Supabase.polls_table s) = [] ->
        listed = [])) /\
  (forall e, Supabase.outage s = Some e ->
     settled (run supabase Rev2.getUserPolls s)
     = Returned {| polls := []; polls_error := Some (message e) |}).
Proof.
  intros Hu. unfold Rev2.getUserPolls. split.
  - intros Hup.
    destruct (select_own_polls s (id u) Hup) as [listed [Hsel Hlist]].
    exists listed. cbn. rewrite Hu. cbn.
    fold newest_first. rewrite Hsel. cbn.
    repeat split; try apply Hlist.
    intros Hnone. destruct Hlist as [Hperm _]. rewrite Hnone in Hperm.
    apply Permutation_nil. symmetry. exact Hperm.
  - intros e Hdown. cbn. rewrite Hu. cbn.
    unfold Supabase.select. rewrite Hdown. reflexivity.
Qed.

(** C4. With nobody signed in, the final revision's getUserPolls gives no
    error state paired with an empty sequence: it throws, where the
    documented revision returns "Not authenticated" with no polls. *)
Theorem getUserPolls_signed_out_no_result :
  forall s : Supabase.state,
    Supabase.session s = None ->
    settled (run supabase Rev2.getUserPolls s)
    = Threw (TypeError "Cannot destructure property 'id' of null") /\
    settled (run supabase Rev1.getUserPolls s)
    = Returned {| polls := []; polls_error := Some "Not authenticated" |}.
Proof.
  intros s Hnone. unfold Rev2.getUserPolls, Rev1.getUserPolls. cbn.
  rewrite Hnone. split; reflexivity.
Qed.

Lemma getUserPolls_signed_out_no_result_witness :
  settled (run supabase Rev2.getUserPolls Sample.signed_out)
  = Threw (TypeError "Cannot destructure property 'id' of null") /\
  settled (run supabase Rev1.getUserPolls Sample.signed_out)
  = Returned {| polls := []; polls_error := Some "Not authenticated" |}.
Proof.
  apply (getUserPolls_signed_out_no_result Sample.signed_out).
  reflexivity.
Defined.

Example getUserPolls_as_alice :
  settled (run supabase Rev2.getUserPolls Sample.as_alice)
  = Returned {| polls := [Sample.tea; Sample.lunch]; polls_error := None |}.
Proof. reflexivity. Qed.

(** ** Deleting a poll *)

Lemma has_id_matches (pid : string) (r : row) :
  Supabase.matches_all [Eq "id" (JStr pid)] r = has_id pid r.
Proof.
  unfold Supabase.matches_all, has_id. simpl. apply andb_true_r.
Qed.

Lemma deletePoll_script (b : backend) (w : world b) (pid : string) :
  delete_contract (fst (respond b (delete_request pid) w)) pid
    (run b (Rev1.deletePoll pid) w) /\
  delete_contract (fst (respond b (delete_request pid) w)) pid
    (run b (Rev2.deletePoll pid) w).
Proof.
  unfold delete_contract, delete_request, Rev1.deletePoll, Rev2.deletePoll.
  simpl.
  destruct (respond b (DbDelete "polls" [Eq "id" (JStr pid)]) w)
    as [answer w1].
  simpl. destruct (write_error answer) as [e|]; simpl.
  - repeat split.
  - destruct (respond b (RevalidatePath "/polls") w1). repeat split.
Qed.

Lemma deletePoll_on_supabase (s : Supabase.state) (pid : string) :
  Supabase.outage s = None ->
  deleted_from s pid (run supabase (Rev1.deletePoll pid) s) /\
  deleted_from s pid (run supabase (Rev2.deletePoll pid) s).
Proof.
  intros Hup.
  unfold deleted_from, Rev1.deletePoll, Rev2.deletePoll. cbn.
  unfold Supabase.write. rewrite Hup. cbn.
  rewrite (filter_ext _ _
             (fun r => f_equal negb (has_id_matches pid r))).
  repeat split.
Qed.

(** C3. deletePoll sends one delete on [polls] filtered by the id alone and
    never asks who the caller is.  It returns the backend's message when
    the delete fails; otherwise it marks "/polls" stale and returns no
    error.  On the reference backend every row with that id is gone and
    every other row stays, whoever is signed in, if anybody. *)
Theorem deletePoll_ignores_the_caller :
  forall (pid : string),
    (forall (b : backend) (w : world b),
       delete_contract (fst (respond b (delete_request pid) w)) pid
         (run b (Rev1.deletePoll pid) w) /\
       delete_contract (fst (respond b (delete_request pid) w)) pid
         (run b (Rev2.deletePoll pid) w)) /\
    (forall s : Supabase.state,
       Supabase.outage s = None ->
       deleted_from s pid (run supabase (Rev1.deletePoll pid) s) /\
       deleted_from s pid (run supabase (Rev2.deletePoll pid) s)).
Proof.
  intros pid. split.
  - intros b w. apply deletePoll_script.
  - intros s Hup. apply deletePoll_on_supabase. exact Hup.
Qed.

Lemma deletePoll_ignores_the_caller_witness :
  unauthenticated supabase Sample.signed_out /\
  deleted_from Sample.signed_out "p1"
    (run supabase (Rev1.deletePoll "p1") Sample.signed_out) /\
  deleted_from Sample.signed_out "p1"
    (run supabase (Rev2.deletePoll "p1") Sample.signed_out).
Proof.
  split; [reflexivity|].
  apply (proj2 (deletePoll_ignores_the_caller "p1") Sample.signed_out).
  reflexivity.
Defined.

(** Bob, and a visitor who is not signed in, delete Alice's poll. *)
Example anybody_deletes_lunch :
  Supabase.polls_table
    (final (run supabase (Rev2.deletePoll "p1") Sample.as_bob))
  = [Sample.pets; Sample.tea] /\
  Supabase.polls_table
    (final (run supabase (Rev1.deletePoll "p1") Sample.signed_out))
  = [Sample.pets; Sample.tea].
Proof. split; reflexivity. Qed.

(** ** Voting *)

Lemma submitVote_script (b : backend) (w : world b) (pollId : string)
    (optionIndex : Z) :
  vote_contract b w pollId optionIndex
    (run b (Rev1.submitVote pollId optionIndex) w) /\
  vote_contract b w pollId optionIndex
    (run b (Rev2.submitVote pollId optionIndex) w).
Proof.
  unfold vote_contract, vote_request, vote_row, caller,
    Rev1.submitVote, Rev2.submitVote.
  simpl.
  destruct (respond b AuthGetUser w) as [auth w1]. simpl.
  destruct (data_user auth) as [u|]; simpl;
    match goal with
    | |- context [respond b ?q w1] =>
        destruct (respond b q w1) as [answer w2]
    end;
    simpl; destruct (write_error answer) as [e|]; repeat split.
Qed.

Lemma submitVote_on_supabase (s : Supabase.state) (pollId : string)
    (optionIndex : Z) :
  Supabase.outage s = None ->
  vote_recorded s pollId optionIndex
    (run supabase (Rev1.submitVote pollId optionIndex) s) /\
  vote_recorded s pollId optionIndex
    (run supabase (Rev2.submitVote pollId optionIndex) s).
Proof.
  intros Hup.
  unfold vote_recorded, vote_row, Rev1.submitVote, Rev2.submitVote. cbn.
  unfold Supabase.write. rewrite Hup. cbn.
  destruct (Supabase.session s) as [u|]; repeat split.
Qed.

(** C7. submitVote asks who the caller is only to fill in [user_id]: for
    every caller, poll id and option index it sends one insert of one vote
    row, with the caller's id when somebody is signed in and null
    otherwise, and its error is the insert's error, if any.  Nothing reads
    the [polls] table, so neither the poll nor the index is checked; on the
    reference backend the row is appended as sent. *)
Theorem submitVote_needs_no_login :
  forall (pollId : string) (optionIndex : Z),
    (forall (b : backend) (w : world b),
       vote_contract b w pollId optionIndex
         (run b (Rev1.submitVote pollId optionIndex) w) /\
       vote_contract b w pollId optionIndex
         (run b (Rev2.submitVote pollId optionIndex) w)) /\
    (forall s : Supabase.state,
       Supabase.outage s = None ->
       vote_recorded s pollId optionIndex
         (run supabase (Rev1.submitVote pollId optionIndex) s) /\
       vote_recorded s pollId optionIndex
         (run supabase (Rev2.submitVote pollId optionIndex) s)).
Proof.
  intros pollId optionIndex. split.
  - intros b w. apply submitVote_script.
  - intros s Hup. apply submitVote_on_supabase. exact Hup.
Qed.

Lemma submitVote_needs_no_login_witness :
  unauthenticated supabase Sample.signed_out /\
  vote_recorded Sample.signed_out "p1" 1
    (run supabase (Rev1.submitVote "p1" 1) Sample.signed_out) /\
  vote_recorded Sample.signed_out "p1" 1
    (run supabase (Rev2.submitVote "p1" 1) Sample.signed_out).
Proof.
  split; [reflexivity|].
  apply (proj2 (submitVote_needs_no_login "p1" 1) Sample.signed_out).
  reflexivity.
Defined.

(** A vote for a poll that does not exist, and one for option 7 of a poll
    with two options, are stored all the same. *)
Example votes_are_not_checked :
  Supabase.votes_table
    (final (run supabase (Rev2.submitVote "no-such-poll" 0)
              Sample.signed_out))
  = [[("poll_id", JStr "no-such-poll"); ("user_id", JNull);
      ("option_index", JNum 0)]] /\
  Supabase.votes_table
    (final (run supabase (Rev2.submitVote "p1" 7) Sample.as_bob))
  = [[("poll_id", JStr "p1"); ("user_id", JStr "bob");
      ("option_index", JNum 7)]].
Proof. split; reflexivity. Qed.

(** ** Updating a poll *)

Lemma owner_filters_match (pollId uid : string) (p : row) :
  Supabase.matches_all [Eq "id" (JStr pollId); Eq "user_id" (JStr uid)] p
  = has_id pollId p && owns uid p.
Proof.
  unfold Supabase.matches_all, has_id, owns. simpl.
  rewrite andb_true_r. reflexivity.
Qed.

Lemma update_misses_foreign_polls (table : list row) (values : row)
    (pollId uid : string) :
  ~ owns_poll table pollId uid ->
  map (fun p =>
         if Supabase.matches_all
              [Eq "id" (JStr pollId); Eq "user_id" (JStr uid)] p
         then Supabase.assign values p else p) table
  = table.
Proof.
  intros Hnot. rewrite <- (map_id table) at 2.
  apply map_ext_in. intros p Hin.
  rewrite owner_filters_match.
  destruct (has_id pollId p && owns uid p) eqn:Hm; [|reflexivity].
  apply andb_true_iff in Hm. exfalso. apply Hnot.
  exists p. tauto.
Qed.

Lemma updatePoll_script (b : backend) (w : world b) (pollId : string)
    (formData : FormData) (u : User) :
  authenticated_as b w u ->
  valid_form formData ->
  trace (run b (Rev1.updatePoll pollId formData) w)
  = [AuthGetUser; update_request pollId u formData] /\
  trace (run b (Rev2.updatePoll pollId formData) w)
  = [AuthGetUser; update_request pollId u formData].
Proof.
  unfold authenticated_as, caller. intros [Hu Hok] Hv.
  unfold Rev1.updatePoll, Rev2.updatePoll, update_request,
    non_blank_options.
  rewrite (guard_accepts _ Hv). simpl.
  destruct (respond b AuthGetUser w) as [auth w1]. simpl in *.
  rewrite Hok, Hu. simpl.
  match goal with
  | |- context [respond b ?q w1] => destruct (respond b q w1) as [answer w2]
  end.
  simpl. destruct (write_error answer); split; reflexivity.
Qed.

(** C6. updatePoll sends its update filtered by the poll id and by the
    caller's id.  On the reference backend a signed-in caller with a valid
    form always gets error = null, owner or not, poll or no poll; and when
    the caller owns no poll with that id, the [polls] table after the call
    is the table before it. *)
Theorem updatePoll_silent_for_non_owner :
  forall (s : Supabase.state) (u : User) (pollId : string)
         (formData : FormData),
    Supabase.session s = Some u ->
    Supabase.auth_failure s = None ->
    Supabase.outage s = None ->
    valid_form formData ->
    (update_reported_ok pollId u formData
       (run supabase (Rev1.updatePoll pollId formData) s) /\
     update_reported_ok pollId u formData
       (run supabase (Rev2.updatePoll pollId formData) s)) /\
    (~ owns_poll (Supabase.polls_table s) pollId (id u) ->
     Supabase.polls_table
       (final (run supabase (Rev1.updatePoll pollId formData) s))
     = Supabase.polls_table s /\
     Supabase.polls_table
       (final (run supabase (Rev2.updatePoll pollId formData) s))
     = Supabase.polls_table s).
Proof.
  intros s u pollId formData Hu Hauth Hup Hv.
  assert (Hcaller : authenticated_as supabase s u).
  { unfold authenticated_as, caller. simpl. auto. }
  destruct (updatePoll_script supabase s pollId formData u Hcaller Hv)
    as [Ht1 Ht2].
  unfold update_reported_ok. rewrite Ht1, Ht2.
  unfold Rev1.updatePoll, Rev2.updatePoll.
  rewrite (guard_accepts _ Hv). cbn.
  rewrite Hauth, Hu. cbn.
  unfold Supabase.write. rewrite Hup. cbn.
  split; [repeat split|].
  intros Hnot.
  split;
    exact (update_misses_foreign_polls (Supabase.polls_table s)
             [("question", json_of_string_or_null (get formData "question"));
              ("options", JStrs (non_blank_options formData))]
             pollId (id u) Hnot).
Qed.

Lemma updatePoll_silent_for_non_owner_witness :
  let formData := Sample.form "Dinner?" ["Soup"; "Stew"] in
  (update_reported_ok "p1" Sample.bob formData
     (run supabase (Rev1.updatePoll "p1" formData) Sample.as_bob) /\
   update_reported_ok "p1" Sample.bob formData
     (run supabase (Rev2.updatePoll "p1" formData) Sample.as_bob)) /\
  Supabase.polls_table
    (final (run supabase (Rev1.updatePoll "p1" formData) Sample.as_bob))
  = [Sample.lunch; Sample.pets; Sample.tea] /\
  Supabase.polls_table
    (final (run supabase (Rev2.updatePoll "p1" formData) Sample.as_bob))
  = [Sample.lunch; Sample.pets; Sample.tea].
Proof.
  assert (Hv : valid_form (Sample.form "Dinner?" ["Soup"; "Stew"])).
  { split; [|simpl; lia].
    exists "Dinner?". split; [reflexivity | discriminate]. }
  destruct (updatePoll_silent_for_non_owner Sample.as_bob Sample.bob "p1"
              (Sample.form "Dinner?" ["Soup"; "Stew"])
              eq_refl eq_refl eq_refl Hv) as [Hok Hsame].
  split; [exact Hok|].
  apply Hsame.
  intros [p [Hin [Hid Hown]]].
  simpl in Hin.
  destruct Hin as [Hp | [Hp | [Hp | []]]]; subst p; discriminate.
Defined.

(** The three cases give one and the same answer: Alice updates her own
    poll, Bob tries Alice's, Alice names a poll that does not exist. *)
Example updatePoll_cases_look_alike :
  let formData := Sample.form "Dinner?" ["Soup"; "Stew"] in
  let owner := run supabase (Rev2.updatePoll "p1" formData) Sample.as_alice in
  let other := run supabase (Rev2.updatePoll "p1" formData) Sample.as_bob in
  let missing :=
    run supabase (Rev2.updatePoll "p9" formData) Sample.as_alice in
  settled owner = Returned ok /\
  settled other = Returned ok /\
  settled missing = Returned ok /\
  Supabase.polls_table (final owner)
  = [Sample.poll_row "p1" "alice" "Dinner?" ["Soup"; "Stew"] 10;
     Sample.pets; Sample.tea] /\
  Supabase.polls_table (final other) = [Sample.lunch; Sample.pets; Sample.tea].
Proof. repeat split. Qed.

(** ** Sanitizing *)



(** The documented revision's createPoll sends the form's values as they
    are. *)
Lemma Rev1_createPoll_persists_as_submitted (b : backend) (w : world b)
    (formData : FormData) (u : User) :
  authenticated_as b w u ->
  valid_form formData ->
  In (DbInsert "polls"
        [[("user_id", JStr (id u));
          ("question", json_of_string_or_null (get formData "question"));
          ("options", JStrs (non_blank_options formData))]])
    (trace (run b (Rev1.createPoll formData) w)).
Proof.
  unfold authenticated_as, caller. intros [Hu Hok] Hv.
  unfold Rev1.createPoll, non_blank_options.
  rewrite (guard_accepts _ Hv). simpl.
  destruct (respond b AuthGetUser w) as [auth w1]. simpl in *.
  rewrite Hok, Hu. simpl.
  match goal with
  | |- context [respond b ?q w1] => destruct (respond b q w1) as [answer w2]
  end.
  simpl. right. left. reflexivity.
Qed.




(** ** Fetching one poll *)

Lemma getPollById_script (b : backend) (w : world b) (pid : string) :
  lookup_contract (fst (respond b (lookup_request pid) w)) pid
    (run b (Rev1.getPollById pid) w) /\
  lookup_contract (fst (respond b (lookup_request pid) w)) pid
    (run b (Rev2.getPollById pid) w).
Proof.
  unfold lookup_contract, lookup_request, Rev1.getPollById,
    Rev2.getPollById.
  answer_all; repeat split.
Qed.

Lemma single_of_select (s : Supabase.state) (pid : string) :
  Supabase.outage s = None ->
  Supabase.single (Supabase.select s "polls" [Eq "id" (JStr pid)] None)
  = match filter (has_id pid) (Supabase.polls_table s) with
    | [p] => {| row_data := Some p; row_error := None |}
    | _ =>
        {| row_data := None;
           row_error :=
             Some {| message :=
               "JSON object requested, multiple (or no) rows returned" |} |}
    end.
Proof.
  intros Hup. unfold Supabase.select. rewrite Hup. simpl.
  rewrite (filter_ext _ _ (has_id_matches pid)).
  unfold Supabase.single. simpl.
  destruct (filter (has_id pid) (Supabase.polls_table s)) as [|p [|q l]];
    reflexivity.
Qed.

Lemma getPollById_on_supabase (s : Supabase.state) (pid : string) :
  Supabase.outage s = None ->
  looked_up s pid (run supabase (Rev1.getPollById pid) s) /\
  looked_up s pid (run supabase (Rev2.getPollById pid) s).
Proof.
  intros Hup. unfold looked_up, Rev1.getPollById, Rev2.getPollById. cbn.
  rewrite (single_of_select s pid Hup).
  destruct (filter (has_id pid) (Supabase.polls_table s)) as [|p [|q l]];
    cbn; repeat split; try discriminate; try congruence;
    intros H; exfalso; apply H; reflexivity.
Qed.

(** X1. getPollById sends one single-row select on [polls] filtered by the
    id, asks nothing of the auth service and hands on the row or the
    backend's message.  On the reference backend it returns the poll when
    exactly one row has that id, whoever is signed in, and an error with no
    poll when none (or more than one) has it; the backend is unchanged. *)
Theorem getPollById_finds_the_one_poll :
  forall pid : string,
    (forall (b : backend) (w : world b),
       lookup_contract (fst (respond b (lookup_request pid) w)) pid
         (run b (Rev1.getPollById pid) w) /\
       lookup_contract (fst (respond b (lookup_request pid) w)) pid
         (run b (Rev2.getPollById pid) w)) /\
    (forall s : Supabase.state,
       Supabase.outage s = None ->
       looked_up s pid (run supabase (Rev1.getPollById pid) s) /\
       looked_up s pid (run supabase (Rev2.getPollById pid) s)).
Proof.
  intros pid. split.
  - intros b w. apply getPollById_script.
  - intros s Hup. apply getPollById_on_supabase. exact Hup.
Qed.

Lemma getPollById_finds_the_one_poll_witness :
  looked_up Sample.signed_out "p2"
    (run supabase (Rev1.getPollById "p2") Sample.signed_out) /\
  looked_up Sample.signed_out "p2"
    (run supabase (Rev2.getPollById "p2") Sample.signed_out).
Proof.
  apply (proj2 (getPollById_finds_the_one_poll "p2") Sample.signed_out).
  reflexivity.
Defined.

Example getPollById_found_and_missing :
  settled (run supabase (Rev2.getPollById "p2") Sample.signed_out)
  = Returned {| poll := Some Sample.pets; poll_error := None |} /\
  settled (run supabase (Rev2.getPollById "p9") Sample.as_alice)
  = Returned
      {| poll := None;
         poll_error :=
           Some "JSON object requested, multiple (or no) rows returned" |}.
Proof. split; reflexivity. Qed.

(** ** What the actions never send *)

Lemma writes_nothing_no_write {A : Type} (p : prog A) :
  writes_nothing p ->
  forall (b : backend) (w : world b), no_write (trace (run b p w)).
Proof.
  unfold no_write.
  induction p as [a | e | r k IH]; simpl; intros H b w.
  - constructor.
  - constructor.
  - destruct H as [Hr Hk]. destruct (respond b r w) as [x w']. simpl.
    constructor; [exact Hr | apply IH; apply Hk].
Qed.

(** X2. The two reads and the five auth actions never send an insert, an
    update or a delete, whatever the backend answers. *)
Theorem reads_and_auth_never_write :
  forall (b : backend) (w : world b) (pollId : string)
         (credentials : Auth.LoginFormData)
         (registration : Auth.RegisterFormData),
    no_write (trace (run b Rev1.getUserPolls w)) /\
    no_write (trace (run b Rev2.getUserPolls w)) /\
    no_write (trace (run b (Rev1.getPollById pollId) w)) /\
    no_write (trace (run b (Rev2.getPollById pollId) w)) /\
    no_write (trace (run b (Auth.login credentials) w)) /\
    no_write (trace (run b (Auth.register registration) w)) /\
    no_write (trace (run b Auth.logout w)) /\
    no_write (trace (run b Auth.getCurrentUser w)) /\
    no_write (trace (run b Auth.getSession w)).
Proof.
  intros b w pollId credentials registration.
  repeat split; apply writes_nothing_no_write;
    unfold Rev1.getUserPolls, Rev2.getUserPolls, Rev1.getPollById,
      Rev2.getPollById, Auth.login, Auth.register, Auth.logout,
      Auth.getCurrentUser, Auth.getSession;
    walk_script.
Qed.

(** X3. createPoll marks "/polls" stale exactly when it returns
    error = null, in both revisions and on every backend; updatePoll never
    marks anything stale, not even when the update went through. *)
Theorem listing_marked_stale_by_create_only :
  forall (purify : option string -> string) (b : backend) (w : world b)
         (pollId : string) (formData : FormData),
    (In (RevalidatePath "/polls") (trace (run b (Rev1.createPoll formData) w))
     <-> settled (run b (Rev1.createPoll formData) w) = Returned ok) /\
    (In (RevalidatePath "/polls")
       (trace (run b (Rev2.createPoll purify formData) w))
     <-> settled (run b (Rev2.createPoll purify formData) w) = Returned ok) /\
    (forall path,
       ~ In (RevalidatePath path)
           (trace (run b (Rev1.updatePoll pollId formData) w))) /\
    (forall path,
       ~ In (RevalidatePath path)
           (trace (run b (Rev2.updatePoll pollId formData) w))).
Proof.
  intros purify b w pollId formData.
  unfold Rev1.createPoll, Rev2.createPoll, Rev1.updatePoll, Rev2.updatePoll.
  repeat split;
    try match goal with
        | |- context [if ?guard then _ else _] => destruct guard
        end;
    answer_all; simpl; try intros path; intuition discriminate.
Qed.

(** ** The auth actions *)

(** X4. login, register and logout each send one request to the auth
    service, with the e-mail, password and name they were given, and return
    the service's error message word for word, or null; getCurrentUser and
    getSession return what the service holds and nothing else, error or
    not. *)
Theorem auth_actions_pass_through :
  forall (b : backend) (w : world b) (credentials : Auth.LoginFormData)
         (registration : Auth.RegisterFormData),
    auth_contract b w
      (AuthSignInWithPassword (Auth.login_email credentials)
         (Auth.login_password credentials))
      auth_error (run b (Auth.login credentials) w) /\
    auth_contract b w
      (AuthSignUp (Auth.register_email registration)
         (Auth.register_password registration)
         (Auth.register_name registration))
      auth_error (run b (Auth.register registration) w) /\
    auth_contract b w AuthSignOut auth_error (run b Auth.logout w) /\
    run b Auth.getCurrentUser w
    = {| settled := Returned (data_user (caller b w));
         final := snd (respond b AuthGetUser w);
         trace := [AuthGetUser] |} /\
    run b Auth.getSession w
    = {| settled := Returned (data_session (fst (respond b AuthGetSession w)));
         final := snd (respond b AuthGetSession w);
         trace := [AuthGetSession] |}.
Proof.
  intros b w credentials registration.
  unfold auth_contract, caller, Auth.login, Auth.register, Auth.logout,
    Auth.getCurrentUser, Auth.getSession.
  repeat split; answer_all; reflexivity.
Qed.

(** ** Creating a poll *)

Lemma json_eqb_refl (v : json) : json_eqb v v = true.
Proof. unfold json_eqb. destruct (json_eq_dec v v); congruence. Qed.

Lemma json_eqb_JStr (a b : string) :
  json_eqb (JStr a) (JStr b) = (a =? b).
Proof.
  unfold json_eqb.
  destruct (json_eq_dec (JStr a) (JStr b)) as [Heq | Hne];
    destruct (String.eqb_spec a b); congruence.
Qed.

Lemma Rev1_createPoll_on_supabase (s : Supabase.state) (u : User)
    (formData : FormData) :
  Supabase.session s = Some u ->
  Supabase.auth_failure s = None ->
  Supabase.outage s = None ->
  valid_form formData ->
  run supabase (Rev1.createPoll formData) s
  = {| settled := Returned ok;
       final :=
         Supabase.with_stale
           (Supabase.tick
              (Supabase.with_polls s
                 (Supabase.polls_table s
                  ++ [("id", JStr (Supabase.poll_id_of (Supabase.next_id s)))
                      :: ("created_at", JNum (Supabase.clock s))
                      :: [("user_id", JStr (id u));
                          ("question",
                           json_of_string_or_null (get formData "question"));
                          ("options", JStrs (non_blank_options formData))]]))
              1)
           "/polls";
       trace :=
         [AuthGetUser;
          DbInsert "polls"
            [[("user_id", JStr (id u));
              ("question", json_of_string_or_null (get formData "question"));
              ("options", JStrs (non_blank_options formData))]];
          RevalidatePath "/polls"] |}.
Proof.
  intros Hu Hauth Hup Hv. unfold Rev1.createPoll, non_blank_options.
  rewrite (guard_accepts _ Hv). cbn.
  rewrite Hauth, Hu. cbn.
  unfold Supabase.write. rewrite Hup. reflexivity.
Qed.

Lemma Rev2_createPoll_on_supabase (purify : option string -> string)
    (s : Supabase.state) (u : User) (formData : FormData) :
  Supabase.session s = Some u ->
  Supabase.auth_failure s = None ->
  Supabase.outage s = None ->
  valid_after_sanitizing purify formData ->
  run supabase (Rev2.createPoll purify formData) s
  = {| settled := Returned ok;
       final :=
         Supabase.with_stale
           (Supabase.tick
              (Supabase.with_polls s
                 (Supabase.polls_table s
                  ++ [("id", JStr (Supabase.poll_id_of (Supabase.next_id s)))
                      :: ("created_at", JNum (Supabase.clock s))
                      :: sanitized_poll purify u formData]))
              1)
           "/polls";
       trace :=
         [AuthGetUser;
          DbInsert "polls" [sanitized_poll purify u formData];
          RevalidatePath "/polls"] |}.
Proof.
  intros Hu Hauth Hup Hv.
  unfold Rev2.createPoll, sanitized_poll, visible_options.
  rewrite (sanitized_guard_accepts _ _ Hv). cbn.
  rewrite Hauth, Hu. cbn.
  unfold Supabase.write. rewrite Hup. reflexivity.
Qed.

(** X5. For a signed-in caller and a healthy backend, createPoll adds
    exactly one poll at the end of [polls], owned by the caller, and leaves
    [votes] alone.  The documented revision stores the question and the
    non-empty options as submitted; the final revision stores the sanitized
    question and the sanitized image of the options that are not white
    space only, order kept. *)
Theorem createPoll_adds_one_poll :
  forall (purify : option string -> string) (s : Supabase.state) (u : User)
         (formData : FormData),
    Supabase.session s = Some u ->
    Supabase.auth_failure s = None ->
    Supabase.outage s = None ->
    (valid_form formData ->
     poll_added s (id u)
       (json_of_string_or_null (get formData "question"))
       (non_blank_options formData)
       (run supabase (Rev1.createPoll formData) s)) /\
    (valid_after_sanitizing purify formData ->
     poll_added s (id u)
       (JStr (purify (get formData "question")))
       (map (fun o => purify (Some o)) (visible_options formData))
       (run supabase (Rev2.createPoll purify formData) s)).
Proof.
  intros purify s u formData Hu Hauth Hup. split; intros Hv.
  - rewrite (Rev1_createPoll_on_supabase s u formData Hu Hauth Hup Hv).
    unfold poll_added. cbn.
    split; [reflexivity|]. split; [|split; [reflexivity|]].
    + eexists. split; [reflexivity|]. repeat split.
    + apply in_or_app. right. left. reflexivity.
  - rewrite (Rev2_createPoll_on_supabase purify s u formData Hu Hauth Hup Hv).
    unfold poll_added. cbn.
    split; [reflexivity|]. split; [|split; [reflexivity|]].
    + eexists. split; [reflexivity|]. repeat split.
    + apply in_or_app. right. left. reflexivity.
Qed.

Lemma createPoll_adds_one_poll_witness :
  let formData := Sample.form "Dinner?" ["Soup"; ""; "<i>Stew</i>"] in
  poll_added Sample.as_alice "alice" (JStr "Dinner?") ["Soup"; "<i>Stew</i>"]
    (run supabase (Rev1.createPoll formData) Sample.as_alice) /\
  poll_added Sample.as_alice "alice" (JStr "Dinner?") ["Soup"; "Stew"]
    (run supabase (Rev2.createPoll Sample.purify formData) Sample.as_alice).
Proof.
  destruct (createPoll_adds_one_poll Sample.purify Sample.as_alice
              Sample.alice (Sample.form "Dinner?" ["Soup"; ""; "<i>Stew</i>"])
              eq_refl eq_refl eq_refl) as [H1 H2].
  split.
  - apply H1. split; [|simpl; lia].
    exists "Dinner?". split; [reflexivity | discriminate].
  - apply H2. split; [discriminate | simpl; lia].
Defined.

(** ** Creating, then listing *)

Lemma owns_own_row (uid : string) (p : row) :
  field p "user_id" = Some (JStr uid) -> owns uid p = true.
Proof. unfold owns. intros ->. apply json_eqb_refl. Qed.

Lemma owns_foreign_row (uid other : string) (p : row) :
  field p "user_id" = Some (JStr uid) -> other <> uid ->
  owns other p = false.
Proof.
  unfold owns. intros -> Hne. rewrite json_eqb_JStr.
  apply String.eqb_neq. congruence.
Qed.

Lemma getUserPolls_settled (s : Supabase.state) (u : User) :
  Supabase.session s = Some u ->
  let sel := Supabase.select s "polls" [Eq "user_id" (JStr (id u))]
               (Some newest_first) in
  let result :=
    Returned match rows_error sel with
             | Some e => {| polls := []; polls_error := Some (message e) |}
             | None =>
                 {| polls := match rows_data sel with
                             | Some data => data
                             | None => []
                             end;
                    polls_error := None |}
             end in
  settled (run supabase Rev1.getUserPolls s) = result /\
  settled (run supabase Rev2.getUserPolls s) = result.
Proof.
  intros Hu. unfold Rev1.getUserPolls, Rev2.getUserPolls. cbn.
  rewrite Hu. cbn. fold newest_first.
  destruct (rows_error _); split; reflexivity.
Qed.

Lemma select_polls_same (s1 s2 : Supabase.state) (uid : string) :
  Supabase.outage s1 = Supabase.outage s2 ->
  filter (owns uid) (Supabase.polls_table s1)
  = filter (owns uid) (Supabase.polls_table s2) ->
  Supabase.select s1 "polls" [Eq "user_id" (JStr uid)] (Some newest_first)
  = Supabase.select s2 "polls" [Eq "user_id" (JStr uid)] (Some newest_first).
Proof.
  intros Hout Hrows. unfold Supabase.select. rewrite Hout.
  destruct (Supabase.outage s2); [reflexivity|]. simpl.
  rewrite !(filter_ext _ _ (owns_matches uid)). rewrite Hrows. reflexivity.
Qed.

Lemma listing_after_append (before s : Supabase.state) (u : User) (p : row) :
  Supabase.session s = Some u ->
  Supabase.outage s = None ->
  Supabase.polls_table s = Supabase.polls_table before ++ [p] ->
  field p "user_id" = Some (JStr (id u)) ->
  forall question options,
    field p "question" = Some question ->
    field p "options" = Some (JStrs options) ->
    lists_new_poll before (id u) question options
      (run supabase Rev1.getUserPolls s) /\
    lists_new_poll before (id u) question options
      (run supabase Rev2.getUserPolls s).
Proof.
  intros Hu Hup Htable Hown question options Hq Ho.
  destruct (proj1 (Rev1_getUserPolls_contract s) u Hu Hup)
    as [listed [Hsettled [[Hperm _] _]]].
  destruct (getUserPolls_settled s u Hu) as [H1 H2].
  rewrite Htable, filter_app in Hperm. simpl in Hperm.
  rewrite (owns_own_row _ _ Hown) in Hperm.
  assert (Hlisted : (exists q, In q listed /\
                               field q "question" = Some question /\
                               field q "options" = Some (JStrs options)) /\
                    length listed
                    = S (length (filter (owns (id u))
                                   (Supabase.polls_table before)))).
  { split.
    - exists p. split; [|split; assumption].
      eapply Permutation_in; [symmetry; exact Hperm|].
      apply in_or_app. right. left. reflexivity.
    - rewrite (Permutation_length Hperm), length_app. simpl. lia. }
  split; exists listed; (split; [|exact Hlisted]).
  - exact Hsettled.
  - exact (eq_trans H2 (eq_trans (eq_sym H1) Hsettled)).
Qed.

Lemma foreign_listing_after_append (before s : Supabase.state) (u other : User)
    (p : row) :
  Supabase.outage s = Supabase.outage before ->
  Supabase.polls_table s = Supabase.polls_table before ++ [p] ->
  field p "user_id" = Some (JStr (id u)) ->
  id other <> id u ->
  settled (run supabase Rev1.getUserPolls
             (Supabase.with_session s (Some other)))
  = settled (run supabase Rev1.getUserPolls
               (Supabase.with_session before (Some other))) /\
  settled (run supabase Rev2.getUserPolls
             (Supabase.with_session s (Some other)))
  = settled (run supabase Rev2.getUserPolls
               (Supabase.with_session before (Some other))).
Proof.
  intros Hout Htable Hown Hne.
  destruct (getUserPolls_settled (Supabase.with_session s (Some other))
              other eq_refl) as [H1 H2].
  destruct (getUserPolls_settled (Supabase.with_session before (Some other))
              other eq_refl) as [H3 H4].
  rewrite H1, H2, H3, H4.
  rewrite (select_polls_same (Supabase.with_session s (Some other))
             (Supabase.with_session before (Some other)) (id other)).
  - split; reflexivity.
  - exact Hout.
  - simpl. rewrite Htable, filter_app. simpl.
    rewrite (owns_foreign_row _ _ _ Hown Hne). apply app_nil_r.
Qed.

(** X6. After a successful createPoll the caller's own getUserPolls lists
    the new poll, one more than before, and the listing of every other user
    is what it was before the create. *)
Theorem created_poll_is_listed_for_its_owner_only :
  forall (purify : option string -> string) (s : Supabase.state) (u : User)
         (formData : FormData),
    Supabase.session s = Some u ->
    Supabase.auth_failure s = None ->
    Supabase.outage s = None ->
    (valid_form formData ->
     let s' := final (run supabase (Rev1.createPoll formData) s) in
     lists_new_poll s (id u)
       (json_of_string_or_null (get formData "question"))
       (non_blank_options formData)
       (run supabase Rev1.getUserPolls s') /\
     forall other,
       id other <> id u ->
       settled (run supabase Rev1.getUserPolls
                  (Supabase.with_session s' (Some other)))
       = settled (run supabase Rev1.getUserPolls
                    (Supabase.with_session s (Some other)))) /\
    (valid_after_sanitizing purify formData ->
     let s' := final (run supabase (Rev2.createPoll purify formData) s) in
     lists_new_poll s (id u)
       (JStr (purify (get formData "question")))
       (map (fun o => purify (Some o)) (visible_options formData))
       (run supabase Rev2.getUserPolls s') /\
     forall other,
       id other <> id u ->
       settled (run supabase Rev2.getUserPolls
                  (Supabase.with_session s' (Some other)))
       = settled (run supabase Rev2.getUserPolls
                    (Supabase.with_session s (Some other)))).
Proof.
  intros purify s u formData Hu Hauth Hup. split; intros Hv s'; subst s'.
  - rewrite (Rev1_createPoll_on_supabase s u formData Hu Hauth Hup Hv).
    cbn [final]. split.
    + eapply listing_after_append; try reflexivity; assumption.
    + intros other Hne.
      eapply foreign_listing_after_append; try reflexivity; eassumption.
  - rewrite (Rev2_createPoll_on_supabase purify s u formData Hu Hauth Hup Hv).
    cbn [final]. split.
    + eapply listing_after_append; try reflexivity; assumption.
    + intros other Hne.
      eapply foreign_listing_after_append; try reflexivity; eassumption.
Qed.

Lemma created_poll_is_listed_for_its_owner_only_witness :
  let formData := Sample.form "Dinner?" ["Soup"; "Stew"] in
  let s' := final (run supabase (Rev1.createPoll formData) Sample.as_alice) in
  lists_new_poll Sample.as_alice "alice" (JStr "Dinner?") ["Soup"; "Stew"]
    (run supabase Rev1.getUserPolls s') /\
  settled (run supabase Rev1.getUserPolls
             (Supabase.with_session s' (Some Sample.bob)))
  = Returned {| polls := [Sample.pets]; polls_error := None |}.
Proof.
  destruct (created_poll_is_listed_for_its_owner_only Sample.purify
              Sample.as_alice Sample.alice
              (Sample.form "Dinner?" ["Soup"; "Stew"])
              eq_refl eq_refl eq_refl) as [Hplain _].
  destruct Hplain as [Hlisted Hothers].
  - split; [|simpl; lia].
    exists "Dinner?". split; [reflexivity | discriminate].
  - split; [exact Hlisted|].
    rewrite (Hothers Sample.bob); [reflexivity | discriminate].
Defined.

(** ** What gets written *)

Lemma guard_false_valid (formData : FormData) :
  negb (Js.truthy_opt (get formData "question"))
  || (length (filter Js.truthy (getAll formData "options")) <? 2)%nat
  = false ->
  valid_form formData.
Proof.
  intros H. apply orb_false_iff in H. destruct H as [Hq Hn].
  apply negb_false_iff in Hq. apply Nat.ltb_ge in Hn.
  split; [|exact Hn].
  destruct (get formData "question") as [q|]; [|discriminate].
  exists q. split; [reflexivity|]. apply truthy_true_nonempty. exact Hq.
Qed.

Lemma sanitized_guard_false_valid (purify : option string -> string)
    (formData : FormData) :
  negb (Js.truthy (Rev2.sanitizeInput purify (get formData "question")))
  || Nat.ltb
       (length
          (map (fun option => Rev2.sanitizeInput purify (Some option))
             (filter (fun option => negb (Js.trim option =? ""))
                (getAll formData "options")))) 2
  = false ->
  valid_after_sanitizing purify formData.
Proof.
  intros H. apply orb_false_iff in H. destruct H as [Hq Hn].
  apply negb_false_iff in Hq. apply Nat.ltb_ge in Hn.
  rewrite length_map in Hn.
  split; [|exact Hn]. apply truthy_true_nonempty. exact Hq.
Qed.

Lemma non_blank_options_not_empty (formData : FormData) :
  Forall (fun o => o <> "") (non_blank_options formData).
Proof.
  apply Forall_forall. intros o Hin.
  apply filter_In in Hin. destruct Hin as [_ Ho].
  apply truthy_true_nonempty. exact Ho.
Qed.

Lemma valid_form_values (formData : FormData) (more : row) :
  valid_form formData ->
  let values :=
    more ++ [("question", json_of_string_or_null (get formData "question"));
             ("options", JStrs (non_blank_options formData))] in
  field more "question" = None -> field more "options" = None ->
  has_question_and_two_options values /\ no_empty_option values.
Proof.
  intros [[q [Hq Hne]] Hn] values Hmq Hmo. subst values.
  assert (Hfq : forall v rest,
             field (more ++ ("question", v) :: rest) "question" = Some v).
  { intros v rest. clear Hmo. induction more as [|[k x] more IH]; simpl.
    - reflexivity.
    - simpl in Hmq. destruct (k =? "question"); [discriminate|].
      apply IH. exact Hmq. }
  assert (Hfo : forall v w,
             field (more ++ [("question", v); ("options", w)]) "options"
             = Some w).
  { intros v w. clear Hmq Hfq. induction more as [|[k x] more IH]; simpl.
    - reflexivity.
    - simpl in Hmo. destruct (k =? "options"); [discriminate|].
      apply IH. exact Hmo. }
  split.
  - exists q, (non_blank_options formData).
    rewrite Hfq, Hfo, Hq. repeat split; assumption.
  - intros os Hos. rewrite Hfo in Hos. injection Hos as <-.
    apply non_blank_options_not_empty.
Qed.

(** X7. Whatever createPoll inserts and updatePoll updates goes to [polls]
    and carries a question that is not empty and at least two options; in
    the documented revision's create and in both updates none of the
    options is empty.  (The final revision's create counts the options
    before it sanitizes them, so a sanitized option may be empty.) *)
Theorem writes_carry_question_and_two_options :
  forall (purify : option string -> string) (b : backend) (w : world b)
         (pollId : string) (formData : FormData),
    (forall table rows,
       In (DbInsert table rows) (trace (run b (Rev1.createPoll formData) w)) ->
       table = "polls" /\
       exists p, rows = [p] /\ has_question_and_two_options p /\
                 no_empty_option p) /\
    (forall table rows,
       In (DbInsert table rows)
         (trace (run b (Rev2.createPoll purify formData) w)) ->
       table = "polls" /\
       exists p, rows = [p] /\ has_question_and_two_options p) /\
    (forall table values filters,
       In (DbUpdate table values filters)
         (trace (run b (Rev1.updatePoll pollId formData) w)) ->
       table = "polls" /\ has_question_and_two_options values /\
       no_empty_option values) /\
    (forall table values filters,
       In (DbUpdate table values filters)
         (trace (run b (Rev2.updatePoll pollId formData) w)) ->
       table = "polls" /\ has_question_and_two_options values /\
       no_empty_option values).
Proof.
  intros purify b w pollId formData.
  split; [|split; [|split]].
  - intros table rows Hin. unfold Rev1.createPoll in Hin.
    match type of Hin with
    | context [if ?guard then _ else _] => destruct guard eqn:Hguard
    end; [contradiction|].
    apply guard_false_valid in Hguard.
    answer_all;
      repeat (destruct Hin as [Hin | Hin]; try discriminate Hin);
      try contradiction;
      injection Hin as <- <-; (split; [reflexivity|]);
      eexists; (split; [reflexivity|]);
      apply (valid_form_values formData [("user_id", _)] Hguard);
      reflexivity.
  - intros table rows Hin. unfold Rev2.createPoll in Hin.
    match type of Hin with
    | context [if ?guard then _ else _] => destruct guard eqn:Hguard
    end; [contradiction|].
    apply sanitized_guard_false_valid in Hguard.
    destruct Hguard as [Hq Hn].
    answer_all;
      repeat (destruct Hin as [Hin | Hin]; try discriminate Hin);
      try contradiction;
      injection Hin as <- <-; (split; [reflexivity|]);
      eexists; (split; [reflexivity|]);
      eexists; eexists; simpl;
      (split; [reflexivity|]); (split; [exact Hq|]);
      (split; [reflexivity|]);
      rewrite length_map; exact Hn.
  - intros table values filters Hin. unfold Rev1.updatePoll in Hin.
    match type of Hin with
    | context [if ?guard then _ else _] => destruct guard eqn:Hguard
    end; [contradiction|].
    apply guard_false_valid in Hguard.
    answer_all;
      repeat (destruct Hin as [Hin | Hin]; try discriminate Hin);
      try contradiction;
      injection Hin as <- <- <-; (split; [reflexivity|]);
      apply (valid_form_values formData [] Hguard); reflexivity.
  - intros table values filters Hin. unfold Rev2.updatePoll in Hin.
    match type of Hin with
    | context [if ?guard then _ else _] => destruct guard eqn:Hguard
    end; [contradiction|].
    apply guard_false_valid in Hguard.
    answer_all;
      repeat (destruct Hin as [Hin | Hin]; try discriminate Hin);
      try contradiction;
      injection Hin as <- <- <-; (split; [reflexivity|]);
      apply (valid_form_values formData [] Hguard); reflexivity.
Qed.

Lemma writes_carry_question_and_two_options_witness :
  let formData := Sample.form "Dinner?" ["Soup"; ""; "Stew"] in
  let sent :=
    [("user_id", JStr "alice"); ("question", JStr "Dinner?");
     ("options", JStrs ["Soup"; "Stew"])] in
  In (DbInsert "polls" [sent])
    (trace (run supabase (Rev1.createPoll formData) Sample.as_alice)) /\
  has_question_and_two_options sent /\ no_empty_option sent.
Proof.
  assert (Hin : In (DbInsert "polls"
                      [[("user_id", JStr "alice"); ("question", JStr "Dinner?");
                        ("options", JStrs ["Soup"; "Stew"])]])
                  (trace (run supabase
                            (Rev1.createPoll
                               (Sample.form "Dinner?" ["Soup"; ""; "Stew"]))
                            Sample.as_alice))).
  { right. left. reflexivity. }
  split; [exact Hin|].
  destruct (proj1 (writes_carry_question_and_two_options Sample.purify
                     supabase Sample.as_alice "p1"
                     (Sample.form "Dinner?" ["Soup"; ""; "Stew"]))
              _ _ Hin) as [_ [p [Hp Hgood]]].
  injection Hp as <-. exact Hgood.
Defined.

(** The final revision's create stores an option that is empty once
    sanitized. *)
Example sanitized_option_may_be_empty :
  In (DbInsert "polls"
        [[("user_id", JStr "alice"); ("question", JStr "Dinner?");
          ("options", JStrs ["Soup"; ""])]])
    (trace (run supabase
              (Rev2.createPoll Sample.purify
                 (Sample.form "Dinner?" ["Soup"; "<b></b>"]))
              Sample.as_alice)).
Proof. right. left. reflexivity. Qed.

(** ** The option fields of the two forms *)

Lemma map_from_length {A B : Type} (f : A -> nat -> B) (l : list A) :
  forall i, length (JsArray.map_from f i l) = length l.
Proof.
  induction l as [|x l IH]; intros i; simpl; [reflexivity|].
  rewrite IH. reflexivity.
Qed.

Lemma map_from_nth {A B : Type} (f : A -> nat -> B) (l : list A) :
  forall i n,
    nth_error (JsArray.map_from f i l) n
    = option_map (fun x => f x (i + n)%nat) (nth_error l n).
Proof.
  induction l as [|x l IH]; intros i n; simpl.
  - destruct n; reflexivity.
  - destruct n as [|n]; simpl.
    + rewrite Nat.add_0_r. reflexivity.
    + rewrite IH. replace (S i + n)%nat with (i + S n)%nat by lia.
      reflexivity.
Qed.

Lemma filter_from_drop {A : Type} (idx : nat) (l : list A) :
  forall i,
    (i <= idx)%nat ->
    JsArray.filter_from (fun _ n => negb (n =? idx)%nat) i l
    = firstn (idx - i) l ++ skipn (S (idx - i)) l.
Proof.
  induction l as [|x l IH]; intros i Hi; simpl.
  - destruct (idx - i)%nat; reflexivity.
  - destruct (Nat.eqb_spec i idx) as [-> | Hne]; simpl.
    + rewrite Nat.sub_diag. simpl. clear IH Hi.
      assert (Hkeep : forall (m : list A) k,
                 (idx < k)%nat ->
                 JsArray.filter_from (fun _ n => negb (n =? idx)%nat) k m
                 = m).
      { induction m as [|y m IHm]; intros k Hk; simpl; [reflexivity|].
        destruct (Nat.eqb_spec k idx); [lia|]. simpl.
        rewrite IHm by lia. reflexivity. }
      apply Hkeep. lia.
    + rewrite IH by lia.
      replace (idx - i)%nat with (S (idx - S i)) by lia. reflexivity.
Qed.

Lemma removeOption_spec (options : list string) (idx : nat)
    (opts : list string) :
  ((length options <= 2)%nat ->
   EditPollForm.removeOption options idx opts = opts) /\
  ((2 < length options)%nat ->
   EditPollForm.removeOption options idx opts
   = firstn idx opts ++ skipn (S idx) opts).
Proof.
  unfold EditPollForm.removeOption. split; intros H.
  - destruct (Nat.ltb_spec 2 (length options)); [lia | reflexivity].
  - destruct (Nat.ltb_spec 2 (length options)); [|lia].
    unfold JsArray.filter. rewrite filter_from_drop by lia.
    rewrite Nat.sub_0_r. reflexivity.
Qed.

Lemma removeOption_length (options : list string) (idx : nat)
    (opts : list string) :
  length (EditPollForm.removeOption options idx opts)
  = if ((2 <? length options) && (idx <? length opts))%nat
    then Nat.pred (length opts) else length opts.
Proof.
  destruct (removeOption_spec options idx opts) as [Hfew Hmany].
  destruct (Nat.ltb_spec 2 (length options)) as [H2 | H2]; simpl.
  - rewrite (Hmany H2), length_app, length_firstn, length_skipn.
    destruct (Nat.ltb_spec idx (length opts)); lia.
  - rewrite (Hfew H2). reflexivity.
Qed.

Lemma forms_share_their_handlers :
  PollCreateForm.handleOptionChange = EditPollForm.handleOptionChange /\
  PollCreateForm.addOption = EditPollForm.addOption /\
  PollCreateForm.removeOption = EditPollForm.removeOption /\
  create_step = edit_step.
Proof. repeat split. Qed.

Lemma edit_step_keeps_two (opts : list string) (e : field_event) :
  (Nat.min 2 (length opts) <= length (edit_step opts e))%nat /\
  (Nat.min 2 (length opts) <= Nat.min 2 (length (edit_step opts e)))%nat.
Proof.
  assert (H : (Nat.min 2 (length opts) <= length (edit_step opts e))%nat).
  { destruct e as [idx value | | idx]; unfold edit_step.
    - unfold EditPollForm.handleOptionChange, JsArray.map.
      rewrite map_from_length. lia.
    - unfold EditPollForm.addOption. rewrite length_app.
      cbn [length]. lia.
    - rewrite removeOption_length.
      destruct (Nat.ltb_spec 2 (length opts));
        destruct (idx <? length opts)%nat; cbn [andb]; lia. }
  split; [exact H | lia].
Qed.

(** X8. As long as every edit, addition and removal is handled by the
    render that shows the current fields (the form is rendered anew between
    two events), the number of option fields of either form never falls
    below two, or below what the form started with if that was less; the
    create form, which starts with two blank fields, then always shows at
    least two. *)
Theorem option_fields_never_drop_below_two :
  forall (events : list field_event) (opts : list string),
    (Nat.min 2 (length opts) <= length (fold_left edit_step events opts))%nat /\
    (Nat.min 2 (length opts)
     <= length (fold_left create_step events opts))%nat /\
    (2 <= length (fold_left create_step events
                    (PollCreateForm.create_options PollCreateForm.initial)))%nat.
Proof.
  assert (H : forall events opts,
             (Nat.min 2 (length opts)
              <= length (fold_left edit_step events opts))%nat).
  { induction events as [|e events IH]; intros opts; cbn [fold_left];
      [lia|].
    specialize (IH (edit_step opts e)).
    destruct (edit_step_keeps_two opts e) as [_ Hmin]. lia. }
  intros events opts.
  destruct forms_share_their_handlers as [_ [_ [_ ->]]].
  split; [apply H | split; [apply H|]].
  apply (H events (PollCreateForm.create_options PollCreateForm.initial)).
Qed.

(** X9. handleOptionChange rewrites the field at the given index and no
    other: the number of fields is unchanged, every other field keeps its
    text, and an index past the last field changes nothing. *)
Theorem handleOptionChange_sets_one_field :
  forall (idx : nat) (value : string) (opts : list string),
    length (EditPollForm.handleOptionChange idx value opts) = length opts /\
    (forall i,
       nth_error (EditPollForm.handleOptionChange idx value opts) i
       = if (i =? idx)%nat
         then option_map (fun _ => value) (nth_error opts i)
         else nth_error opts i) /\
    ((length opts <= idx)%nat ->
     EditPollForm.handleOptionChange idx value opts = opts) /\
    PollCreateForm.handleOptionChange idx value opts
    = EditPollForm.handleOptionChange idx value opts.
Proof.
  intros idx value opts.
  unfold EditPollForm.handleOptionChange, JsArray.map.
  assert (Hnth : forall i,
             nth_error
               (JsArray.map_from
                  (fun opt n => if (n =? idx)%nat then value else opt) 0 opts)
               i
             = if (i =? idx)%nat
               then option_map (fun _ => value) (nth_error opts i)
               else nth_error opts i).
  { intros i. rewrite map_from_nth. simpl.
    destruct (i =? idx)%nat; destruct (nth_error opts i); reflexivity. }
  split; [apply map_from_length|].
  split; [exact Hnth|].
  split; [|reflexivity].
  intros Hout. apply nth_error_ext. intros i. rewrite Hnth.
  destruct (Nat.eqb_spec i idx) as [-> | _]; [|reflexivity].
  assert (Hnone : nth_error opts idx = None) by (apply nth_error_None; lia).
  rewrite Hnone. reflexivity.
Qed.

Lemma handleOptionChange_sets_one_field_witness :
  EditPollForm.handleOptionChange 5 "Stew" ["Soup"; "Salad"]
  = ["Soup"; "Salad"].
Proof.
  apply (proj1 (proj2 (proj2 (handleOptionChange_sets_one_field
                                5 "Stew" ["Soup"; "Salad"])))).
  simpl. lia.
Defined.

(** X10. A removeOption handler that belongs to a render with more than
    two fields drops the field at the given index from the latest state and
    keeps the others in their order, however many fields that state has by
    then: the guard reads the render's fields, not the state's, so a second
    removal handled by the same three-field render leaves one field.  An
    index past the last field drops nothing, and a handler of a render with
    two fields or fewer changes nothing. *)
Theorem removeOption_drops_one_field :
  forall (options : list string) (idx : nat) (opts : list string),
    ((2 < length options)%nat ->
     EditPollForm.removeOption options idx opts
     = firstn idx opts ++ skipn (S idx) opts) /\
    ((2 < length options)%nat -> (idx < length opts)%nat ->
     length (EditPollForm.removeOption options idx opts)
     = Nat.pred (length opts)) /\
    ((length opts <= idx)%nat ->
     EditPollForm.removeOption options idx opts = opts) /\
    ((length options <= 2)%nat ->
     EditPollForm.removeOption options idx opts = opts) /\
    PollCreateForm.removeOption options idx opts
    = EditPollForm.removeOption options idx opts.
Proof.
  intros options idx opts.
  destruct (removeOption_spec options idx opts) as [Hfew Hmany].
  split; [exact Hmany|]. split; [|split; [|split; [exact Hfew|reflexivity]]].
  - intros H2 Hidx.
    rewrite (Hmany H2), length_app, length_firstn, length_skipn. lia.
  - intros Hout.
    destruct (Nat.le_gt_cases (length options) 2) as [H2 | H2].
    + apply Hfew. exact H2.
    + rewrite (Hmany H2), firstn_all2 by lia.
      rewrite skipn_all2 by lia. apply app_nil_r.
Qed.

Lemma removeOption_drops_one_field_witness :
  let rendered := ["Soup"; "Salad"; "Stew"] in
  EditPollForm.removeOption rendered 1 rendered = ["Soup"; "Stew"] /\
  length (EditPollForm.removeOption rendered 0
            (EditPollForm.removeOption rendered 1 rendered)) = 1%nat /\
  EditPollForm.removeOption rendered 3 rendered = rendered /\
  EditPollForm.removeOption ["Soup"; "Salad"] 0 ["Soup"; "Salad"]
  = ["Soup"; "Salad"].
Proof.
  split; [|split; [|split]].
  - apply (proj1 (removeOption_drops_one_field
                    ["Soup"; "Salad"; "Stew"] 1 ["Soup"; "Salad"; "Stew"])).
    simpl. lia.
  - apply (proj1 (proj2 (removeOption_drops_one_field
                           ["Soup"; "Salad"; "Stew"] 0
                           (EditPollForm.removeOption
                              ["Soup"; "Salad"; "Stew"] 1
                              ["Soup"; "Salad"; "Stew"])))).
    + simpl. lia.
    + simpl. lia.
  - apply (proj1 (proj2 (proj2 (removeOption_drops_one_field
                                  ["Soup"; "Salad"; "Stew"] 3
                                  ["Soup"; "Salad"; "Stew"])))).
    simpl. lia.
  - apply (proj1 (proj2 (proj2 (proj2 (removeOption_drops_one_field
                                         ["Soup"; "Salad"] 0
                                         ["Soup"; "Salad"]))))).
    simpl. lia.
Defined.

(** ** Form data *)

Lemma get_append (formData : FormData) (name value wanted : string) :
  get (Form.append formData name value) wanted
  = match get formData wanted with
    | Some v => Some v
    | None => if name =? wanted then Some value else None
    end.
Proof.
  unfold Form.append.
  induction formData as [|[k v] rest IH]; simpl; [reflexivity|].
  destruct (k =? wanted); [reflexivity | exact IH].
Qed.

Lemma getAll_append (formData : FormData) (name value wanted : string) :
  getAll (Form.append formData name value) wanted
  = getAll formData wanted ++ (if name =? wanted then [value] else []).
Proof.
  unfold Form.append.
  induction formData as [|[k v] rest IH]; simpl.
  - destruct (name =? wanted); reflexivity.
  - destruct (k =? wanted); simpl; rewrite IH; reflexivity.
Qed.

Lemma get_delete (formData : FormData) (name wanted : string) :
  get (Form.delete formData name) wanted
  = if wanted =? name then None else get formData wanted.
Proof.
  unfold Form.delete.
  induction formData as [|[k v] rest IH]; simpl.
  - destruct (wanted =? name); reflexivity.
  - destruct (String.eqb_spec k name) as [-> | Hk]; simpl.
    + rewrite IH. rewrite (String.eqb_sym name wanted).
      destruct (wanted =? name); reflexivity.
    + rewrite IH.
      destruct (String.eqb_spec k wanted) as [-> | Hw]; [|reflexivity].
      apply String.eqb_neq in Hk. rewrite Hk. reflexivity.
Qed.

Lemma getAll_delete (formData : FormData) (name wanted : string) :
  getAll (Form.delete formData name) wanted
  = if wanted =? name then [] else getAll formData wanted.
Proof.
  unfold Form.delete.
  induction formData as [|[k v] rest IH]; simpl.
  - destruct (wanted =? name); reflexivity.
  - destruct (String.eqb_spec k name) as [-> | Hk]; simpl.
    + rewrite IH. rewrite (String.eqb_sym name wanted).
      destruct (wanted =? name); reflexivity.
    + rewrite IH.
      destruct (String.eqb_spec k wanted) as [-> | Hw]; [|reflexivity].
      apply String.eqb_neq in Hk. rewrite Hk. reflexivity.
Qed.

Lemma get_set (formData : FormData) (name value wanted : string) :
  get (Form.set formData name value) wanted
  = if wanted =? name then Some value else get formData wanted.
Proof.
  induction formData as [|[k v] rest IH]; simpl.
  - rewrite (String.eqb_sym name wanted).
    destruct (wanted =? name); reflexivity.
  - destruct (String.eqb_spec k name) as [-> | Hk]; simpl.
    + rewrite get_delete, (String.eqb_sym name wanted).
      destruct (wanted =? name); reflexivity.
    + rewrite IH.
      destruct (String.eqb_spec k wanted) as [-> | Hw]; [|reflexivity].
      apply String.eqb_neq in Hk. rewrite Hk. reflexivity.
Qed.

Lemma getAll_set (formData : FormData) (name value wanted : string) :
  getAll (Form.set formData name value) wanted
  = if wanted =? name then [value] else getAll formData wanted.
Proof.
  induction formData as [|[k v] rest IH]; simpl.
  - rewrite (String.eqb_sym name wanted).
    destruct (wanted =? name); reflexivity.
  - destruct (String.eqb_spec k name) as [-> | Hk]; simpl.
    + rewrite getAll_delete. rewrite (String.eqb_sym name wanted).
      destruct (wanted =? name); reflexivity.
    + rewrite IH.
      destruct (String.eqb_spec k wanted) as [-> | Hw]; [|reflexivity].
      apply String.eqb_neq in Hk. rewrite Hk. reflexivity.
Qed.

Lemma get_appended_options (options : list string) :
  forall (formData : FormData) (wanted : string),
    wanted <> "options" ->
    get (fold_left (fun fd opt => Form.append fd "options" opt)
           options formData) wanted
    = get formData wanted.
Proof.
  induction options as [|o options IH]; intros formData wanted Hw;
    cbn [fold_left]; [reflexivity|].
  rewrite IH by exact Hw. rewrite get_append.
  destruct (get formData wanted); [reflexivity|].
  destruct (String.eqb_spec "options" wanted); congruence.
Qed.

Lemma getAll_appended_options (options : list string) :
  forall (formData : FormData) (wanted : string),
    getAll (fold_left (fun fd opt => Form.append fd "options" opt)
              options formData) wanted
    = getAll formData wanted
      ++ (if "options" =? wanted then options else []).
Proof.
  induction options as [|o options IH]; intros formData wanted;
    cbn [fold_left].
  - destruct ("options" =? wanted); cbn iota; rewrite app_nil_r;
      reflexivity.
  - rewrite IH, getAll_append, <- app_assoc.
    destruct ("options" =? wanted); reflexivity.
Qed.

(** X11. The form data the edit action builds holds the state's question
    as its one question and the state's options, all of them and in order,
    as its options, whatever the submitted form held under those names;
    every other field of the submitted form is passed on as it was. *)
Theorem edit_form_data_is_the_state :
  forall (st : EditPollForm.state) (formData : FormData),
    get (EditPollForm.formDataOf st formData) "question"
    = Some (EditPollForm.edit_question st) /\
    getAll (EditPollForm.formDataOf st formData) "question"
    = [EditPollForm.edit_question st] /\
    getAll (EditPollForm.formDataOf st formData) "options"
    = EditPollForm.edit_options st /\
    (forall name,
       name <> "question" -> name <> "options" ->
       getAll (EditPollForm.formDataOf st formData) name
       = getAll formData name).
Proof.
  intros st formData. unfold EditPollForm.formDataOf.
  repeat split.
  - rewrite get_appended_options by discriminate.
    rewrite get_delete, get_set. reflexivity.
  - rewrite getAll_appended_options, getAll_delete, getAll_set. reflexivity.
  - rewrite getAll_appended_options, getAll_delete. reflexivity.
  - intros name Hq Ho.
    rewrite getAll_appended_options, getAll_delete, getAll_set.
    apply String.eqb_neq in Hq. rewrite Hq.
    destruct (String.eqb_spec "options" name) as [E | _]; [congruence|].
    apply String.eqb_neq in Ho. rewrite Ho. apply app_nil_r.
Qed.

Lemma edit_form_data_is_the_state_witness :
  let st :=
    {| EditPollForm.edit_question := "Dinner?";
       EditPollForm.edit_options := ["Soup"; ""; "Stew"];
       EditPollForm.edit_error := None;
       EditPollForm.edit_success := false |} in
  let stale :=
    [("options", "Pizza"); ("note", "x"); ("question", "Lunch?");
     ("question", "Again?"); ("options", "Salad")] in
  getAll (EditPollForm.formDataOf st stale) "note" = ["x"].
Proof.
  apply (proj2 (proj2 (proj2 (edit_form_data_is_the_state
    {| EditPollForm.edit_question := "Dinner?";
       EditPollForm.edit_options := ["Soup"; ""; "Stew"];
       EditPollForm.edit_error := None;
       EditPollForm.edit_success := false |}
    [("options", "Pizza"); ("note", "x"); ("question", "Lunch?");
     ("question", "Again?"); ("options", "Salad")]))) "note");
    discriminate.
Defined.

(** ** Running one script after another *)

Lemma run_bind {A B : Type} (b : backend) (p : prog A) (k : A -> prog B) :
  forall w : world b,
    run b (bind p k) w
    = match settled (run b p w) with
      | Returned a =>
          let rest := run b (k a) (final (run b p w)) in
          {| settled := settled rest;
             final := final rest;
             trace := trace (run b p w) ++ trace rest |}
      | Threw e =>
          {| settled := Threw e;
             final := final (run b p w);
             trace := trace (run b p w) |}
      end.
Proof.
  induction p as [a | e | r k' IH]; intros w; simpl.
  - destruct (run b (k a) w); reflexivity.
  - reflexivity.
  - destruct (respond b r w) as [x w']. simpl. rewrite IH.
    destruct (settled (run b (k' x) w')); reflexivity.
Qed.

Lemma updatePoll_reads_two_fields (pollId : string) (fd1 fd2 : FormData) :
  get fd1 "question" = get fd2 "question" ->
  getAll fd1 "options" = getAll fd2 "options" ->
  Rev2.updatePoll pollId fd1 = Rev2.updatePoll pollId fd2.
Proof. unfold Rev2.updatePoll. intros -> ->. reflexivity. Qed.

Lemma edit_action_run (b : backend) (w : world b) (poll_id : string)
    (st : EditPollForm.state) (formData : FormData) :
  exists res,
    settled (run b (Rev2.updatePoll poll_id
                      (EditPollForm.formDataOf st formData)) w)
    = Returned res /\
    run b (EditPollForm.action poll_id st formData) w
    = {| settled :=
           Returned (if Js.truthy_opt (error res)
                     then match error res with
                          | Some msg => edit_failed st msg
                          | None => edit_succeeded st
                          end
                     else edit_succeeded st);
         final := final (run b (Rev2.updatePoll poll_id
                                  (EditPollForm.formDataOf st formData)) w);
         trace := trace (run b (Rev2.updatePoll poll_id
                                  (EditPollForm.formDataOf st formData)) w)
      |}.
Proof.
  destruct (actions_never_throw (fun _ => "")
              (EditPollForm.formDataOf st formData) poll_id 0
              {| Auth.login_email := ""; Auth.login_password := "" |}
              {| Auth.register_name := ""; Auth.register_email := "";
                 Auth.register_password := "" |})
    as [_ [_ [_ [_ [_ [_ [_ [_ [Hnever _]]]]]]]]].
  destruct (never_throws_returns _ Hnever b w) as [res Hres].
  exists res. split; [exact Hres|].
  unfold EditPollForm.action. rewrite run_bind, Hres.
  destruct res as [[msg|]]; simpl.
  - destruct (Js.truthy msg); simpl; rewrite app_nil_r; reflexivity.
  - rewrite app_nil_r. reflexivity.
Qed.

(** ** Submitting the edit form *)

Lemma formDataOf_question (st : EditPollForm.state) (formData : FormData) :
  get (EditPollForm.formDataOf st formData) "question"
  = Some (EditPollForm.edit_question st).
Proof.
  unfold EditPollForm.formDataOf.
  rewrite get_appended_options by discriminate.
  rewrite get_delete, get_set. reflexivity.
Qed.

Lemma formDataOf_options (st : EditPollForm.state) (formData : FormData) :
  getAll (EditPollForm.formDataOf st formData) "options"
  = EditPollForm.edit_options st.
Proof.
  unfold EditPollForm.formDataOf.
  rewrite getAll_appended_options, getAll_delete. reflexivity.
Qed.

Lemma formDataOf_valid (st : EditPollForm.state) (formData : FormData) :
  edit_state_valid st -> valid_form (EditPollForm.formDataOf st formData).
Proof.
  intros [Hq Hn]. split.
  - exists (EditPollForm.edit_question st).
    split; [apply formDataOf_question | exact Hq].
  - unfold non_blank_options. rewrite formDataOf_options. exact Hn.
Qed.

Lemma formDataOf_invalid (st : EditPollForm.state) (formData : FormData) :
  ~ edit_state_valid st -> invalid_form (EditPollForm.formDataOf st formData).
Proof.
  intros Hnot. unfold invalid_form, empty_question, non_blank_options.
  rewrite formDataOf_question, formDataOf_options.
  destruct (string_dec (EditPollForm.edit_question st) "") as [-> | Hq];
    [left; right; reflexivity|].
  right.
  destruct (Nat.lt_ge_cases
              (length (filter Js.truthy (EditPollForm.edit_options st))) 2)
    as [Hlt | Hge]; [exact Hlt|].
  exfalso. apply Hnot. split; assumption.
Qed.

Lemma edit_request_of_form_data (poll_id : string) (u : User)
    (st : EditPollForm.state) (formData : FormData) :
  update_request poll_id u (EditPollForm.formDataOf st formData)
  = edit_request poll_id u st.
Proof.
  unfold update_request, edit_request, non_blank_options.
  rewrite formDataOf_question, formDataOf_options. reflexivity.
Qed.

(** X12. What the edit action asks of the server depends on the form's
    state alone, not on the form data it was handed: for a signed-in caller
    and a state with a question and two filled-in options it is one update
    of the poll with the state's question and its non-empty options, in
    order.  Blank option fields are not sent on. *)
Theorem edit_action_sends_the_state :
  forall (poll_id : string) (st : EditPollForm.state) (formData : FormData),
    EditPollForm.action poll_id st formData
    = EditPollForm.action poll_id st [] /\
    (forall (b : backend) (w : world b) (u : User),
       authenticated_as b w u ->
       edit_state_valid st ->
       trace (run b (EditPollForm.action poll_id st formData) w)
       = [AuthGetUser; edit_request poll_id u st]).
Proof.
  intros poll_id st formData. split.
  - unfold EditPollForm.action.
    rewrite (updatePoll_reads_two_fields poll_id
               (EditPollForm.formDataOf st formData)
               (EditPollForm.formDataOf st [])).
    + reflexivity.
    + rewrite !formDataOf_question. reflexivity.
    + rewrite !formDataOf_options. reflexivity.
  - intros b w u Hu Hv.
    destruct (edit_action_run b w poll_id st formData) as [res [_ Hrun]].
    rewrite Hrun. cbn [trace].
    destruct (updatePoll_script b w poll_id
                (EditPollForm.formDataOf st formData) u Hu
                (formDataOf_valid st formData Hv)) as [_ Htrace].
    rewrite Htrace, edit_request_of_form_data. reflexivity.
Qed.

Lemma edit_action_sends_the_state_witness :
  let st :=
    {| EditPollForm.edit_question := "Dinner?";
       EditPollForm.edit_options := ["Soup"; ""; "Stew"; ""];
       EditPollForm.edit_error := Some "old message";
       EditPollForm.edit_success := false |} in
  trace (run supabase
           (EditPollForm.action "p1" st (Sample.form "Lunch?" ["Pizza"]))
           Sample.as_alice)
  = [AuthGetUser;
     DbUpdate "polls"
       [("question", JStr "Dinner?"); ("options", JStrs ["Soup"; "Stew"])]
       [Eq "id" (JStr "p1"); Eq "user_id" (JStr "alice")]].
Proof.
  apply (proj2 (edit_action_sends_the_state "p1"
    {| EditPollForm.edit_question := "Dinner?";
       EditPollForm.edit_options := ["Soup"; ""; "Stew"; ""];
       EditPollForm.edit_error := Some "old message";
       EditPollForm.edit_success := false |}
    (Sample.form "Lunch?" ["Pizza"])) supabase Sample.as_alice Sample.alice).
  - split; reflexivity.
  - split; [discriminate | simpl; lia].
Defined.

(** X13. The edit action always ends with the form's question and options
    untouched and with exactly one of two outcomes: the success flag and a
    redirect to "/polls", with no message; or a message that is not empty,
    no success flag and no redirect.  When the state has an empty question
    or fewer than two filled-in options the message is the validation
    message and nothing is sent to the backend. *)
Theorem edit_action_feedback :
  forall (b : backend) (w : world b) (poll_id : string)
         (st : EditPollForm.state) (formData : FormData),
    (exists out,
       settled (run b (EditPollForm.action poll_id st formData) w)
       = Returned out /\
       edit_feedback st out) /\
    (~ edit_state_valid st ->
     run b (EditPollForm.action poll_id st formData) w
     = {| settled := Returned (edit_failed st validation_message);
          final := w;
          trace := [] |}).
Proof.
  intros b w poll_id st formData. split.
  - destruct (edit_action_run b w poll_id st formData) as [res [_ Hrun]].
    rewrite Hrun. cbn [settled]. eexists. split; [reflexivity|].
    unfold edit_feedback.
    destruct res as [[msg|]]; simpl.
    + destruct (Js.truthy msg) eqn:Hmsg; simpl.
      * repeat split. right. repeat split.
        exists msg. split; [reflexivity|].
        apply truthy_true_nonempty. exact Hmsg.
      * repeat split. left. repeat split.
    + repeat split. left. repeat split.
  - intros Hnot. unfold EditPollForm.action.
    rewrite (Rev2_updatePoll_invalid poll_id _
               (formDataOf_invalid st formData Hnot)).
    reflexivity.
Qed.

Lemma edit_action_feedback_witness :
  let st :=
    {| EditPollForm.edit_question := "Dinner?";
       EditPollForm.edit_options := ["Soup"; ""; ""];
       EditPollForm.edit_error := None;
       EditPollForm.edit_success := true |} in
  run supabase (EditPollForm.action "p1" st []) Sample.as_alice
  = {| settled := Returned (edit_failed st validation_message);
       final := Sample.as_alice;
       trace := [] |}.
Proof.
  apply (proj2 (edit_action_feedback supabase Sample.as_alice "p1"
    {| EditPollForm.edit_question := "Dinner?";
       EditPollForm.edit_options := ["Soup"; ""; ""];
       EditPollForm.edit_error := None;
       EditPollForm.edit_success := true |} [])).
  intros [_ Hn]. simpl in Hn. lia.
Defined.

(** A backend error with an empty message counts as success: the form
    shows "Poll updated!" although the update failed. *)
Example empty_error_message_reads_as_success :
  let down :=
    {| Supabase.session := Some Sample.alice;
       Supabase.auth_failure := None;
       Supabase.accounts := [];
       Supabase.polls_table := [Sample.lunch];
       Supabase.votes_table := [];
       Supabase.outage := Some {| message := "" |};
       Supabase.stale_paths := [];
       Supabase.next_id := 2;
       Supabase.clock := 11 |} in
  let st :=
    {| EditPollForm.edit_question := "Dinner?";
       EditPollForm.edit_options := ["Soup"; "Stew"];
       EditPollForm.edit_error := None;
       EditPollForm.edit_success := false |} in
  settled (run supabase (EditPollForm.action "p1" st []) down)
  = Returned (edit_succeeded st) /\
  Supabase.polls_table
    (final (run supabase (EditPollForm.action "p1" st []) down))
  = [Sample.lunch].
Proof. split; reflexivity. Qed.

Lemma Rev2_updatePoll_on_supabase (s : Supabase.state) (u : User)
    (pollId : string) (formData : FormData) :
  Supabase.session s = Some u ->
  Supabase.auth_failure s = None ->
  Supabase.outage s = None ->
  valid_form formData ->
  run supabase (Rev2.updatePoll pollId formData) s
  = {| settled := Returned ok;
       final :=
         Supabase.tick
           (Supabase.with_polls s
              (map (fun p =>
                      if Supabase.matches_all
                           [Eq "id" (JStr pollId);
                            Eq "user_id" (JStr (id u))] p
                      then Supabase.assign
                             [("question",
                               json_of_string_or_null
                                 (get formData "question"));
                              ("options",
                               JStrs (non_blank_options formData))] p
                      else p)
                 (Supabase.polls_table s)))
           0;
       trace := [AuthGetUser; update_request pollId u formData] |}.
Proof.
  intros Hu Hauth Hup Hv.
  unfold Rev2.updatePoll, update_request, non_blank_options.
  rewrite (guard_accepts _ Hv). cbn.
  rewrite Hauth, Hu. cbn.
  unfold Supabase.write. rewrite Hup. reflexivity.
Qed.

(** X14. A signed-in user who submits a well-filled edit form for a poll
    that is not theirs (or that does not exist) is shown success and sent
    back to the listing, while the [polls] table is exactly what it was. *)
Theorem edit_form_reports_success_to_non_owner :
  forall (s : Supabase.state) (u : User) (poll_id : string)
         (st : EditPollForm.state) (formData : FormData),
    Supabase.session s = Some u ->
    Supabase.auth_failure s = None ->
    Supabase.outage s = None ->
    edit_state_valid st ->
    ~ owns_poll (Supabase.polls_table s) poll_id (id u) ->
    settled (run supabase (EditPollForm.action poll_id st formData) s)
    = Returned (edit_succeeded st) /\
    Supabase.polls_table
      (final (run supabase (EditPollForm.action poll_id st formData) s))
    = Supabase.polls_table s.
Proof.
  intros s u poll_id st formData Hu Hauth Hup Hv Hnot.
  destruct (edit_action_run supabase s poll_id st formData)
    as [res [Hres Hrun]].
  rewrite (Rev2_updatePoll_on_supabase s u poll_id _ Hu Hauth Hup
             (formDataOf_valid st formData Hv)) in Hres, Hrun.
  cbn [settled final] in Hres, Hrun. injection Hres as <-.
  rewrite Hrun. cbn [settled final error ok Js.truthy_opt].
  split; [reflexivity|].
  exact (update_misses_foreign_polls (Supabase.polls_table s) _ poll_id
           (id u) Hnot).
Qed.

Lemma edit_form_reports_success_to_non_owner_witness :
  let st :=
    {| EditPollForm.edit_question := "Dinner?";
       EditPollForm.edit_options := ["Soup"; "Stew"];
       EditPollForm.edit_error := None;
       EditPollForm.edit_success := false |} in
  settled (run supabase (EditPollForm.action "p1" st []) Sample.as_bob)
  = Returned (edit_succeeded st) /\
  Supabase.polls_table
    (final (run supabase (EditPollForm.action "p1" st []) Sample.as_bob))
  = [Sample.lunch; Sample.pets; Sample.tea].
Proof.
  apply (edit_form_reports_success_to_non_owner Sample.as_bob Sample.bob
    "p1"
    {| EditPollForm.edit_question := "Dinner?";
       EditPollForm.edit_options := ["Soup"; "Stew"];
       EditPollForm.edit_error := None;
       EditPollForm.edit_success := false |} []
    eq_refl eq_refl eq_refl).
  - split; [discriminate | simpl; lia].
  - intros [p [Hin [Hid Hown]]]. simpl in Hin.
    destruct Hin as [Hp | [Hp | [Hp | []]]]; subst p; discriminate.
Defined.

(** ** Submitting the create form *)

Lemma entries_fields (question : string) (st : PollCreateForm.state) :
  get (PollCreateForm.entries question st) "question" = Some question /\
  getAll (PollCreateForm.entries question st) "options"
  = PollCreateForm.create_options st.
Proof.
  unfold PollCreateForm.entries. split; [reflexivity|]. simpl.
  induction (PollCreateForm.create_options st) as [|o os IH]; simpl;
    [reflexivity | rewrite IH; reflexivity].
Qed.

Lemma Rev2_createPoll_few_options (purify : option string -> string)
    (formData : FormData) :
  (length (non_blank_options formData) < 2)%nat ->
  Rev2.createPoll purify formData = Ret (failure validation_message).
Proof.
  intros Hfew. unfold Rev2.createPoll.
  pose proof (visible_options_le formData) as Hle.
  unfold visible_options in Hle.
  match goal with
  | |- context [(length ?l <? 2)%nat] =>
      assert (Hguard : (length l <? 2)%nat = true)
        by (apply Nat.ltb_lt; rewrite length_map; lia);
      rewrite Hguard
  end.
  rewrite orb_true_r. reflexivity.
Qed.

(** X15. The create form gets the validation message, and nothing reaches
    the backend, whenever fewer than two of its option fields are filled
    in, whatever the question and in both revisions of createPoll: blank
    fields do not count.  In particular the form as first shown, with its
    two blank fields, cannot create a poll. *)
Theorem create_form_needs_two_filled_fields :
  forall (purify : option string -> string) (b : backend) (w : world b)
         (question : string) (st : PollCreateForm.state),
    (length (filter Js.truthy (PollCreateForm.create_options st)) < 2)%nat ->
    run b (PollCreateForm.action Rev1.createPoll st
             (PollCreateForm.entries question st)) w
    = {| settled := Returned (create_failed st validation_message);
         final := w;
         trace := [] |} /\
    run b (PollCreateForm.action (Rev2.createPoll purify) st
             (PollCreateForm.entries question st)) w
    = {| settled := Returned (create_failed st validation_message);
         final := w;
         trace := [] |}.
Proof.
  intros purify b w question st Hfew.
  destruct (entries_fields question st) as [_ Hoptions].
  assert (Hblank : (length (non_blank_options
                              (PollCreateForm.entries question st)) < 2)%nat).
  { unfold non_blank_options. rewrite Hoptions. exact Hfew. }
  unfold PollCreateForm.action.
  rewrite (Rev1_createPoll_invalid _ (or_intror Hblank)).
  rewrite (Rev2_createPoll_few_options purify _ Hblank).
  split; reflexivity.
Qed.

Lemma create_form_needs_two_filled_fields_witness :
  run supabase
    (PollCreateForm.action (Rev2.createPoll Sample.purify)
       PollCreateForm.initial
       (PollCreateForm.entries "Lunch?" PollCreateForm.initial))
    Sample.as_alice
  = {| settled :=
         Returned (create_failed PollCreateForm.initial validation_message);
       final := Sample.as_alice;
       trace := [] |}.
Proof.
  apply (create_form_needs_two_filled_fields Sample.purify supabase
           Sample.as_alice "Lunch?" PollCreateForm.initial).
  simpl. lia.
Defined.

(** ** The dashboard page *)

Lemma Rev1_getUserPolls_error_means_no_polls (b : backend) (w : world b) :
  exists res,
    settled (run b Rev1.getUserPolls w) = Returned res /\
    (polls_error res <> None -> polls res = []).
Proof.
  unfold Rev1.getUserPolls. answer_all; eexists;
    (split; [reflexivity|]); simpl; congruence.
Qed.

Lemma Rev2_getUserPolls_error_means_no_polls (b : backend) (w : world b) :
  match settled (run b Rev2.getUserPolls w) with
  | Returned res => polls_error res <> None -> polls res = []
  | Threw _ => unauthenticated b w
  end.
Proof.
  unfold Rev2.getUserPolls, unauthenticated, caller.
  simpl. destruct (respond b AuthGetUser w) as [auth w1]. simpl.
  destruct (data_user auth) as [u|]; [|reflexivity].
  answer_all; simpl; congruence.
Qed.

Lemma render_consistent (listed : list row) (err : option string) :
  (err <> None -> listed = []) ->
  PollsPage.cards (PollsPage.render listed err) = listed /\
  page_consistent (PollsPage.render listed err).
Proof.
  intros Herr. unfold page_consistent, PollsPage.render. simpl.
  destruct listed as [|p listed]; simpl.
  - split; [reflexivity|]. split; [tauto|].
    intros msg Hmsg. destruct err as [e|]; simpl in Hmsg; [|discriminate].
    destruct (Js.truthy e) eqn:He; [|discriminate].
    injection Hmsg as <-. apply truthy_true_nonempty in He. tauto.
  - split; [reflexivity|]. split; [split; discriminate|].
    intros msg Hmsg. destruct err as [e|]; simpl in Hmsg; [|discriminate].
    assert (Hnil : p :: listed = []) by (apply Herr; discriminate).
    discriminate Hnil.
Qed.

(** X16. The dashboard shows one card per poll that getUserPolls returned,
    in the same order, and the "No polls yet" block exactly when there is
    none; an error line is never empty and never comes with a card.  With
    the documented getUserPolls the page always renders; with the final
    revision's it fails to render only when nobody is signed in. *)
Theorem dashboard_page_is_consistent :
  forall (b : backend) (w : world b),
    (exists res v,
       settled (run b Rev1.getUserPolls w) = Returned res /\
       settled (run b (PollsPage.PollsPage Rev1.getUserPolls) w)
       = Returned v /\
       PollsPage.cards v = polls res /\ page_consistent v) /\
    match settled (run b (PollsPage.PollsPage Rev2.getUserPolls) w) with
    | Returned v =>
        (exists res,
           settled (run b Rev2.getUserPolls w) = Returned res /\
           PollsPage.cards v = polls res) /\
        page_consistent v
    | Threw _ => unauthenticated b w
    end.
Proof.
  intros b w. split.
  - destruct (Rev1_getUserPolls_error_means_no_polls b w)
      as [res [Hres Herr]].
    destruct (render_consistent (polls res) (polls_error res) Herr)
      as [Hcards Hpage].
    exists res. eexists.
    split; [exact Hres|].
    unfold PollsPage.PollsPage. rewrite run_bind, Hres. cbn.
    split; [reflexivity|]. split; [exact Hcards | exact Hpage].
  - pose proof (Rev2_getUserPolls_error_means_no_polls b w) as Hrev2.
    unfold PollsPage.PollsPage. rewrite run_bind.
    destruct (settled (run b Rev2.getUserPolls w)) as [res | e];
      [|exact Hrev2].
    destruct (render_consistent (polls res) (polls_error res) Hrev2)
      as [Hcards Hpage].
    cbn. split; [|exact Hpage].
    exists res. split; [reflexivity | exact Hcards].
Qed.

Example dashboard_signed_out :
  settled (run supabase (PollsPage.PollsPage Rev1.getUserPolls)
             Sample.signed_out)
  = Returned {| PollsPage.cards := [];
                PollsPage.no_polls_yet := true;
                PollsPage.error_line := Some "Not authenticated" |} /\
  settled (run supabase (PollsPage.PollsPage Rev2.getUserPolls)
             Sample.signed_out)
  = Threw (TypeError "Cannot destructure property 'id' of null") /\
  settled (run supabase (PollsPage.PollsPage Rev2.getUserPolls)
             Sample.as_alice)
  = Returned {| PollsPage.cards := [Sample.tea; Sample.lunch];
                PollsPage.no_polls_yet := false;
                PollsPage.error_line := None |}.
Proof. repeat split. Qed.

(** ** Lookups after a delete and after an update *)

Lemma getPollById_settled (s : Supabase.state) (pid : string) :
  Supabase.outage s = None ->
  let answer :=
    Returned match filter (has_id pid) (Supabase.polls_table s) with
             | [p] => {| poll := Some p; poll_error := None |}
             | _ => not_found
             end in
  settled (run supabase (Rev1.getPollById pid) s) = answer /\
  settled (run supabase (Rev2.getPollById pid) s) = answer.
Proof.
  intros Hup. unfold Rev1.getPollById, Rev2.getPollById. cbn.
  rewrite (single_of_select s pid Hup).
  destruct (filter (has_id pid) (Supabase.polls_table s)) as [|p [|q l]];
    split; reflexivity.
Qed.

Lemma deletePoll_final (s : Supabase.state) (pid : string) :
  Supabase.outage s = None ->
  let s' :=
    Supabase.with_stale
      (Supabase.tick
         (Supabase.with_polls s
            (filter (fun p => negb (has_id pid p)) (Supabase.polls_table s)))
         0)
      "/polls" in
  final (run supabase (Rev1.deletePoll pid) s) = s' /\
  final (run supabase (Rev2.deletePoll pid) s) = s'.
Proof.
  intros Hup. unfold Rev1.deletePoll, Rev2.deletePoll. cbn.
  unfold Supabase.write. rewrite Hup. cbn.
  rewrite (filter_ext _ _
             (fun r => f_equal negb (has_id_matches pid r))).
  split; reflexivity.
Qed.

Lemma has_id_unique (pid other : string) (p : row) :
  other <> pid -> has_id other p = true -> has_id pid p = false.
Proof.
  unfold has_id. intros Hne Hother.
  destruct (field p "id") as [v|]; [|reflexivity].
  unfold json_eqb in *.
  destruct (json_eq_dec v (JStr other)) as [-> | _]; [|discriminate].
  destruct (json_eq_dec (JStr other) (JStr pid)) as [Heq | _];
    [|reflexivity].
  injection Heq as Heq. contradiction.
Qed.

Lemma filter_after_delete (pid other : string) (table : list row) :
  filter (has_id pid) (filter (fun p => negb (has_id pid p)) table) = [] /\
  (other <> pid ->
   filter (has_id other) (filter (fun p => negb (has_id pid p)) table)
   = filter (has_id other) table).
Proof.
  split.
  - induction table as [|p table IH]; simpl; [reflexivity|].
    destruct (has_id pid p) eqn:Hp; simpl; [exact IH|].
    rewrite Hp. exact IH.
  - intros Hne. induction table as [|p table IH]; simpl; [reflexivity|].
    destruct (has_id pid p) eqn:Hp; simpl.
    + destruct (has_id other p) eqn:Ho; [|exact IH].
      rewrite (has_id_unique pid other p Hne Ho) in Hp. discriminate.
    + rewrite IH. reflexivity.
Qed.

(** X17. Once deletePoll has gone through, getPollById for that id
    answers with an error and no poll, whoever asks; a lookup of any other
    id answers what it answered before the delete. *)
Theorem deleted_poll_cannot_be_fetched :
  forall (s : Supabase.state) (pid : string),
    Supabase.outage s = None ->
    settled (run supabase (Rev1.getPollById pid)
               (final (run supabase (Rev1.deletePoll pid) s)))
    = Returned not_found /\
    settled (run supabase (Rev2.getPollById pid)
               (final (run supabase (Rev2.deletePoll pid) s)))
    = Returned not_found /\
    (forall other,
       other <> pid ->
       settled (run supabase (Rev1.getPollById other)
                  (final (run supabase (Rev1.deletePoll pid) s)))
       = settled (run supabase (Rev1.getPollById other) s) /\
       settled (run supabase (Rev2.getPollById other)
                  (final (run supabase (Rev2.deletePoll pid) s)))
       = settled (run supabase (Rev2.getPollById other) s)).
Proof.
  intros s pid Hup.
  destruct (deletePoll_final s pid Hup) as [Hf1 Hf2].
  rewrite Hf1, Hf2.
  set (s' := Supabase.with_stale _ _).
  assert (Hup' : Supabase.outage s' = None) by exact Hup.
  assert (Htable : Supabase.polls_table s'
                   = filter (fun p => negb (has_id pid p))
                       (Supabase.polls_table s)) by reflexivity.
  split; [|split].
  - rewrite (proj1 (getPollById_settled s' pid Hup')), Htable.
    rewrite (proj1 (filter_after_delete pid pid _)). reflexivity.
  - rewrite (proj2 (getPollById_settled s' pid Hup')), Htable.
    rewrite (proj1 (filter_after_delete pid pid _)). reflexivity.
  - intros other Hne.
    rewrite (proj1 (getPollById_settled s' other Hup')),
      (proj2 (getPollById_settled s' other Hup')),
      (proj1 (getPollById_settled s other Hup)),
      (proj2 (getPollById_settled s other Hup)), Htable.
    rewrite (proj2 (filter_after_delete pid other _) Hne).
    split; reflexivity.
Qed.

Lemma deleted_poll_cannot_be_fetched_witness :
  settled (run supabase (Rev2.getPollById "p1")
             (final (run supabase (Rev2.deletePoll "p1") Sample.signed_out)))
  = Returned not_found /\
  settled (run supabase (Rev2.getPollById "p2")
             (final (run supabase (Rev2.deletePoll "p1") Sample.signed_out)))
  = Returned {| poll := Some Sample.pets; poll_error := None |}.
Proof.
  destruct (deleted_poll_cannot_be_fetched Sample.signed_out "p1" eq_refl)
    as [_ [Hgone Hothers]].
  split; [exact Hgone|].
  destruct (Hothers "p2") as [_ Hsame]; [discriminate|].
  rewrite Hsame. reflexivity.
Defined.

Lemma field_set_field (r : row) (column wanted : string) (v : json) :
  field (Supabase.set_field r column v) wanted
  = if wanted =? column then Some v else field r wanted.
Proof.
  induction r as [|[k old] rest IH]; simpl.
  - rewrite (String.eqb_sym column wanted).
    destruct (wanted =? column); reflexivity.
  - destruct (String.eqb_spec k column) as [-> | Hk]; simpl.
    + rewrite (String.eqb_sym column wanted).
      destruct (wanted =? column); reflexivity.
    + rewrite IH.
      destruct (String.eqb_spec k wanted) as [-> | Hw]; [|reflexivity].
      apply String.eqb_neq in Hk. rewrite Hk. reflexivity.
Qed.

Lemma field_assign_poll (p : row) (question options : json)
    (wanted : string) :
  field (Supabase.assign [("question", question); ("options", options)] p)
    wanted
  = if wanted =? "options" then Some options
    else if wanted =? "question" then Some question
    else field p wanted.
Proof.
  unfold Supabase.assign. cbn [fold_left fst snd].
  rewrite !field_set_field. reflexivity.
Qed.

Lemma filter_map_commute {A : Type} (keep : A -> bool) (f : A -> A)
    (l : list A) :
  (forall x, keep (f x) = keep x) ->
  filter keep (map f l) = map f (filter keep l).
Proof.
  intros Hf. induction l as [|x l IH]; simpl; [reflexivity|].
  rewrite Hf. destruct (keep x); simpl; rewrite IH; reflexivity.
Qed.

(** X18. When the owner's updatePoll has gone through for a poll whose id
    is unique, getPollById returns that poll with the submitted question
    and non-empty options and with every other column (id, owner, creation
    time) as it was. *)
Theorem updated_poll_is_fetched_back :
  forall (s : Supabase.state) (u : User) (pid : string)
         (formData : FormData) (old : row),
    Supabase.session s = Some u ->
    Supabase.auth_failure s = None ->
    Supabase.outage s = None ->
    valid_form formData ->
    filter (has_id pid) (Supabase.polls_table s) = [old] ->
    owns (id u) old = true ->
    fetched_updated old formData
      (run supabase (Rev1.getPollById pid)
         (final (run supabase (Rev1.updatePoll pid formData) s))) /\
    fetched_updated old formData
      (run supabase (Rev2.getPollById pid)
         (final (run supabase (Rev2.updatePoll pid formData) s))).
Proof.
  intros s u pid formData old Hu Hauth Hup Hv Hone Hown.
  change (Rev1.updatePoll pid formData) with (Rev2.updatePoll pid formData).
  rewrite (Rev2_updatePoll_on_supabase s u pid formData Hu Hauth Hup Hv).
  cbn [final].
  set (values := [("question", json_of_string_or_null (get formData "question"));
                  ("options", JStrs (non_blank_options formData))]).
  set (change := fun p : list (string * json) =>
                   if Supabase.matches_all
                        [Eq "id" (JStr pid); Eq "user_id" (JStr (id u))] p
                   then Supabase.assign values p else p).
  set (s' := Supabase.tick _ 0).
  assert (Hup' : Supabase.outage s' = None) by exact Hup.
  assert (Hkeep : forall p, has_id pid (change p) = has_id pid p).
  { intros p. unfold change.
    destruct (Supabase.matches_all _ p); [|reflexivity].
    unfold has_id, values. rewrite field_assign_poll. reflexivity. }
  assert (Hold : has_id pid old = true).
  { assert (Hin : In old (filter (has_id pid) (Supabase.polls_table s)))
      by (rewrite Hone; left; reflexivity).
    apply filter_In in Hin. tauto. }
  assert (Hfound : filter (has_id pid) (Supabase.polls_table s')
                   = [Supabase.assign values old]).
  { change (Supabase.polls_table s')
      with (map change (Supabase.polls_table s)).
    rewrite (filter_map_commute _ _ _ Hkeep), Hone. simpl.
    unfold change. rewrite owner_filters_match, Hold, Hown. reflexivity. }
  destruct (getPollById_settled s' pid Hup') as [H1 H2].
  rewrite Hfound in H1, H2.
  assert (Hfields :
            field (Supabase.assign values old) "question"
            = Some (json_of_string_or_null (get formData "question")) /\
            field (Supabase.assign values old) "options"
            = Some (JStrs (non_blank_options formData)) /\
            (forall column,
               column <> "question" -> column <> "options" ->
               field (Supabase.assign values old) column
               = field old column)).
  { unfold values. repeat split.
    - rewrite field_assign_poll. reflexivity.
    - rewrite field_assign_poll. reflexivity.
    - intros column Hq Ho. rewrite field_assign_poll.
      apply String.eqb_neq in Hq, Ho. rewrite Hq, Ho. reflexivity. }
  split; exists (Supabase.assign values old); (split; [|exact Hfields]).
  - exact H1.
  - exact H2.
Qed.

Lemma updated_poll_is_fetched_back_witness :
  let formData := Sample.form "Dinner?" ["Soup"; ""; "Stew"] in
  fetched_updated Sample.lunch formData
    (run supabase (Rev1.getPollById "p1")
       (final (run supabase (Rev1.updatePoll "p1" formData)
                 Sample.as_alice))) /\
  fetched_updated Sample.lunch formData
    (run supabase (Rev2.getPollById "p1")
       (final (run supabase (Rev2.updatePoll "p1" formData)
                 Sample.as_alice))).
Proof.
  apply (updated_poll_is_fetched_back Sample.as_alice Sample.alice "p1"
           (Sample.form "Dinner?" ["Soup"; ""; "Stew"]) Sample.lunch
           eq_refl eq_refl eq_refl).
  - split; [|simpl; lia].
    exists "Dinner?". split; [reflexivity | discriminate].
  - reflexivity.
  - reflexivity.
Defined.

(** ** From the create form to the table *)

Lemma entries_valid (question : string) (st : PollCreateForm.state) :
  question <> "" ->
  (2 <= length (filter Js.truthy (PollCreateForm.create_options st)))%nat ->
  valid_form (PollCreateForm.entries question st).
Proof.
  intros Hq Hn. destruct (entries_fields question st) as [Hget Hall].
  split.
  - exists question. split; [exact Hget | exact Hq].
  - unfold non_blank_options. rewrite Hall. exact Hn.
Qed.

(** X19. A signed-in user who submits the create form with a question and
    at least two filled-in option fields is shown success and sent to the
    listing, and [polls] has one more poll, theirs.  With the documented
    createPoll it holds the question and the filled-in options as typed;
    with the final one, the sanitized question and the sanitized options
    that are not white space only. *)
Theorem create_form_creates_the_poll :
  forall (purify : option string -> string) (s : Supabase.state) (u : User)
         (question : string) (st : PollCreateForm.state),
    Supabase.session s = Some u ->
    Supabase.auth_failure s = None ->
    Supabase.outage s = None ->
    (question <> "" ->
     (2 <= length (filter Js.truthy (PollCreateForm.create_options st)))%nat ->
     let r := run supabase
                (PollCreateForm.action Rev1.createPoll st
                   (PollCreateForm.entries question st)) s in
     settled r = Returned (create_succeeded st) /\
     poll_stored s (final r) (id u) question
       (filter Js.truthy (PollCreateForm.create_options st))) /\
    (purify (Some question) <> "" ->
     (2 <= length (more_than_white_space
                     (PollCreateForm.create_options st)))%nat ->
     let r := run supabase
                (PollCreateForm.action (Rev2.createPoll purify) st
                   (PollCreateForm.entries question st)) s in
     settled r = Returned (create_succeeded st) /\
     poll_stored s (final r) (id u) (purify (Some question))
       (map (fun o => purify (Some o))
          (more_than_white_space (PollCreateForm.create_options st)))).
Proof.
  intros purify s u question st Hu Hauth Hup.
  destruct (entries_fields question st) as [Hget Hall].
  split.
  - intros Hq Hn r. subst r. unfold PollCreateForm.action.
    rewrite run_bind.
    rewrite (Rev1_createPoll_on_supabase s u _ Hu Hauth Hup
               (entries_valid question st Hq Hn)).
    unfold non_blank_options. rewrite Hget, Hall.
    cbn. split; [reflexivity|].
    eexists. split; [reflexivity|]. repeat split.
  - intros Hq Hn r. subst r. unfold PollCreateForm.action.
    rewrite run_bind.
    assert (Hv : valid_after_sanitizing purify
                   (PollCreateForm.entries question st)).
    { unfold valid_after_sanitizing, visible_options.
      rewrite Hget, Hall. split; assumption. }
    rewrite (Rev2_createPoll_on_supabase purify s u _ Hu Hauth Hup Hv).
    unfold sanitized_poll, visible_options. rewrite Hget, Hall.
    cbn. split; [reflexivity|].
    eexists. split; [reflexivity|]. repeat split.
Qed.

Lemma create_form_creates_the_poll_witness :
  let st :=
    {| PollCreateForm.create_options := ["<i>Soup</i>"; "  "; "Stew"];
       PollCreateForm.create_error := None;
       PollCreateForm.create_success := false |} in
  let plain := run supabase
                 (PollCreateForm.action Rev1.createPoll st
                    (PollCreateForm.entries "Dinner?" st)) Sample.as_alice in
  let clean := run supabase
                 (PollCreateForm.action (Rev2.createPoll Sample.purify) st
                    (PollCreateForm.entries "Dinner?" st)) Sample.as_alice in
  (settled plain = Returned (create_succeeded st) /\
   poll_stored Sample.as_alice (final plain) "alice" "Dinner?"
     ["<i>Soup</i>"; "  "; "Stew"]) /\
  (settled clean = Returned (create_succeeded st) /\
   poll_stored Sample.as_alice (final clean) "alice" "Dinner?"
     ["Soup"; "Stew"]).
Proof.
  destruct (create_form_creates_the_poll Sample.purify Sample.as_alice
              Sample.alice "Dinner?"
              {| PollCreateForm.create_options :=
                   ["<i>Soup</i>"; "  "; "Stew"];
                 PollCreateForm.create_error := None;
                 PollCreateForm.create_success := false |}
              eq_refl eq_refl eq_refl) as [Hplain Hclean].
  split.
  - apply Hplain; [discriminate | simpl; lia].
  - apply Hclean; [discriminate | simpl; lia].
Defined.

(** ** Where the two revisions of createPoll part ways *)

(** X20. A form that passes the documented validation (a question, two
    non-empty options) but not the final revision's (its question is empty
    once sanitized, or fewer than two of its options are more than white
    space) is rejected by the final createPoll with the validation message
    and no request, while the documented createPoll inserts it and
    updatePoll, in both revisions, writes it. *)
Theorem stricter_validation_on_final_create_only :
  forall (purify : option string -> string) (b : backend) (w : world b)
         (pollId : string) (formData : FormData) (u : User),
    authenticated_as b w u ->
    valid_form formData ->
    ~ valid_after_sanitizing purify formData ->
    run b (Rev2.createPoll purify formData) w
    = {| settled := Returned (failure validation_message);
         final := w;
         trace := [] |} /\
    In (DbInsert "polls"
          [[("user_id", JStr (id u));
            ("question", json_of_string_or_null (get formData "question"));
            ("options", JStrs (non_blank_options formData))]])
      (trace (run b (Rev1.createPoll formData) w)) /\
    trace (run b (Rev1.updatePoll pollId formData) w)
    = [AuthGetUser; update_request pollId u formData] /\
    trace (run b (Rev2.updatePoll pollId formData) w)
    = [AuthGetUser; update_request pollId u formData].
Proof.
  intros purify b w pollId formData u Hu Hv Hnot.
  split; [|split].
  - unfold Rev2.createPoll.
    match goal with
    | |- context [if ?guard then _ else _] => destruct guard eqn:Hguard
    end; [reflexivity|].
    exfalso. apply Hnot.
    apply sanitized_guard_false_valid. exact Hguard.
  - apply Rev1_createPoll_persists_as_submitted; assumption.
  - apply updatePoll_script; assumption.
Qed.

Lemma stricter_validation_on_final_create_only_witness :
  let formData := Sample.form "<b></b>" ["Pizza"; "   "] in
  run supabase (Rev2.createPoll Sample.purify formData) Sample.as_alice
  = {| settled := Returned (failure validation_message);
       final := Sample.as_alice;
       trace := [] |} /\
  In (DbInsert "polls"
        [[("user_id", JStr "alice"); ("question", JStr "<b></b>");
          ("options", JStrs ["Pizza"; "   "])]])
    (trace (run supabase (Rev1.createPoll formData) Sample.as_alice)).
Proof.
  destruct (stricter_validation_on_final_create_only Sample.purify supabase
              Sample.as_alice "p1" (Sample.form "<b></b>" ["Pizza"; "   "])
              Sample.alice) as [Hfinal [Hdocumented _]].
  - split; reflexivity.
  - split; [|simpl; lia].
    exists "<b></b>". split; [reflexivity | discriminate].
  - intros [Hq _]. apply Hq. reflexivity.
  - split; [exact Hfinal | exact Hdocumented].
Defined.
